(** * Climate stress-test engine of the Scenarios page

    The Scenarios page (src/unnamed/part_000) computes its stress report in
    [calculateStressOutcomes] and renders a recommendation list from the
    report.  This file embeds that function, the parameter catalogue
    [STRESS_TEST_PARAMS], the preset list [presetScenarios] and the
    recommendation rules, and proves the properties of the engine.  It then
    embeds the page around the engine: the [stressParams] state with its
    three handlers, the slider and gauge components, the chart data, the
    conditional styling of the results, and the what-if tab with
    [runSimulation].

    Numbers.  JavaScript numbers are IEEE-754 doubles.  They are modelled
    here by exact rationals ([Q]): every arithmetic operator of the source is
    the exact operator, [Math.max]/[Math.min] are [Qmax]/[Qmin],
    [Math.pow(x, 2)] is [x ^ 2], and [parseFloat(x.toFixed(d))] is the
    decimal rounding of ECMA-262 (nearest multiple of [10^-d], ties to the
    larger magnitude).  Equality of numbers is [Qeq] ([==]); labels are
    strings with Leibniz equality.

    [Module Binary64] holds the same computation on binary64 numbers; it
    is used to evaluate the program at concrete inputs and to compare the
    source's expressions with the formulas of the specification bit for
    bit.  The doubles and the rationals differ by the rounding of each
    operation, so a field of the exact report can differ in its last digit
    from the one the program prints where the exact value is a decimal tie
    (see [projected_npa_below_tie]).  The arithmetic of the gauge component
    is embedded on doubles only. *)

From Stdlib Require Import QArith Qround Qminmax Qabs.
From Stdlib Require Import ZArith List String Bool.
From Stdlib Require Import Lia Lqa Psatz.
From Stdlib Require Import Floats.
Import ListNotations.

Local Open Scope Q_scope.

(** ** JavaScript numeric primitives *)

Module Js.

(** [a > b], [a >= b] and [a < b] on numbers. *)
Definition gt (a b : Q) : bool := negb (Qle_bool a b).
Definition ge (a b : Q) : bool := Qle_bool b a.
Definition lt (a b : Q) : bool := negb (Qle_bool b a).

(** The strings produced by [Number.prototype.toFixed]: either a sign, the
    integer [n] whose digits are printed and the number of fraction digits,
    or, for a magnitude of 10^21 and more, the output of [ToString], which
    denotes the number itself. *)
Inductive Numeral : Set :=
| Digits (negative : bool) (digits : Z) (fraction : nat)
| Shortest (value : Q).

Definition pow10 (d : nat) : Q := inject_Z (10 ^ Z.of_nat d).

Definition limit : Q := inject_Z (10 ^ 21).

(** The integer [n] for which [n / 10^d - x] is as close to zero as
    possible, the larger one when there are two (ECMA-262, 21.1.3.3). *)
Definition nearest (x : Q) (d : nat) : Z := Qfloor (x * pow10 d + 0.5).

(** [x.toFixed(d)]: a negative [x] is printed as ["-"] followed by the
    digits of [-x]. *)
Definition toFixed (x : Q) (d : nat) : Numeral :=
  if ge (Qabs x) limit then Shortest x
  else if lt x 0 then Digits true (nearest (- x) d) d
  else Digits false (nearest x d) d.

(** [parseFloat] on the output of [toFixed]. *)
Definition parseFloat (s : Numeral) : Q :=
  match s with
  | Digits negative digits fraction =>
      let v := inject_Z digits / pow10 fraction in
      if negative then - v else v
  | Shortest value => value
  end.

(** [parseFloat(x.toFixed(d))], the idiom by which every computed field
    enters the report. *)
Abbreviation fixed x d := (parseFloat (toFixed x d)) (only parsing).

(** [x] is a decimal number with at most [d] fraction digits. *)
Definition decimal (d : nat) (x : Q) : Prop :=
  exists n : Z, x == inject_Z n / pow10 d.

(** [y] is [x] rounded to [d] decimals: a [d]-digit decimal at distance at
    most half a unit of the last digit from [x]. *)
Definition rounding (d : nat) (x y : Q) : Prop :=
  decimal d y /\ Qabs (y - x) <= 0.5 / pow10 d.

End Js.

(** ** Parameter catalogue *)

Record StressParameters : Set := mkParams {
  temperature_rise : Q;
  carbon_price : Q;
  green_investment_growth : Q;
  fossil_phase_out : Q;
  water_stress_level : Q;
  disaster_frequency : Q
}.

(** One entry of [STRESS_TEST_PARAMS] (the numeric part). *)
Record ParamConfig : Set := mkConfig {
  min : Q;
  max : Q;
  step : Q;
  default : Q
}.

Module STRESS_TEST_PARAMS.
Definition temperature_rise := mkConfig 1.0 4.0 0.1 1.5.
Definition carbon_price := mkConfig 500 5000 100 1000.
Definition green_investment_growth := mkConfig 0 50 1 20.
Definition fossil_phase_out := mkConfig 0 15 0.5 5.
Definition water_stress_level := mkConfig 0 100 1 45.
Definition disaster_frequency := mkConfig 1.0 3.0 0.1 1.5.
End STRESS_TEST_PARAMS.

Definition within (c : ParamConfig) (v : Q) : Prop := min c <= v /\ v <= max c.

(** Every field lies inside the [min, max] of its catalogue entry. *)
Definition in_range (p : StressParameters) : Prop :=
  within STRESS_TEST_PARAMS.temperature_rise (temperature_rise p) /\
  within STRESS_TEST_PARAMS.carbon_price (carbon_price p) /\
  within STRESS_TEST_PARAMS.green_investment_growth (green_investment_growth p) /\
  within STRESS_TEST_PARAMS.fossil_phase_out (fossil_phase_out p) /\
  within STRESS_TEST_PARAMS.water_stress_level (water_stress_level p) /\
  within STRESS_TEST_PARAMS.disaster_frequency (disaster_frequency p).

(** The initial state of [stressParams], which is also what [resetParams]
    rebuilds from the [default] entries. *)
Definition defaults : StressParameters :=
  mkParams (default STRESS_TEST_PARAMS.temperature_rise)
           (default STRESS_TEST_PARAMS.carbon_price)
           (default STRESS_TEST_PARAMS.green_investment_growth)
           (default STRESS_TEST_PARAMS.fossil_phase_out)
           (default STRESS_TEST_PARAMS.water_stress_level)
           (default STRESS_TEST_PARAMS.disaster_frequency).

(** ** Preset scenarios *)

Record Preset : Set := mkPreset {
  name : string;
  params : StressParameters;
  description : string
}.

Definition presetScenarios : list Preset :=
  [ mkPreset "Net Zero 2050" (mkParams 1.5 3000 40 10 35 1.2)
             "Aggressive decarbonization pathway";
    mkPreset "Business as Usual" (mkParams 2.5 800 10 2 55 1.8)
             "Current trajectory continues";
    mkPreset "Delayed Transition" (mkParams 2.0 1500 25 5 50 1.5)
             "Gradual policy implementation";
    mkPreset "Climate Crisis" (mkParams 3.5 500 5 1 80 2.5)
             "Worst-case climate scenario";
    mkPreset "Green Recovery" (mkParams 1.8 2500 45 12 40 1.3)
             "Accelerated green investment" ].

Definition preset (n : string) : option Preset :=
  find (fun s => String.eqb (name s) n) presetScenarios.

(** ** The stress report *)

(** The shape shared by the [baseline] and [projected] objects. *)
Record Metrics : Set := mkMetrics {
  npa_ratio : Q;
  gdp_growth : Q;
  expected_loss : Q;
  green_finance_share : Q;
  capital_ratio : Q;
  liquidity_coverage : Q
}.

Record RiskScores : Set := mkRiskScores {
  physical : Q;
  transition : Q;
  financial : Q;
  operational : Q;
  regulatory : Q;
  overall : Q
}.

Record Changes : Set := mkChanges {
  npa_change : Q;
  gdp_change : Q;
  loss_change_pct : Q
}.

Record StressReport : Set := mkReport {
  baseline : Metrics;
  projected : Metrics;
  risk_scores : RiskScores;
  changes : Changes;
  stress_level : string;
  capital_adequacy : string
}.

(** ** [calculateStressOutcomes] *)

(** The two conditional chains at the end of [calculateStressOutcomes], as
    functions of the value they test. *)
Definition stressLevelOf (overallStressScore : Q) : string :=
  if Js.gt overallStressScore 70 then "Severe"
  else if Js.gt overallStressScore 50 then "High"
  else if Js.gt overallStressScore 30 then "Moderate"
  else "Low".

Definition capitalAdequacyOf (capitalRatio : Q) : string :=
  if Js.ge capitalRatio 11.5 then "Adequate"
  else if Js.ge capitalRatio 9 then "Watch"
  else "Critical".

Section Outcomes.

Variable params : StressParameters.

(* Base values *)
Definition baseNPA : Q := 2.5.
Definition baseGDP : Q := 6.5.
Definition baseExpectedLoss : Q := 15000.
Definition baseGreenFinance : Q := 20.

(* Calculate impacts *)
Definition temperatureImpact : Q := (temperature_rise params - 1.5) ^ 2 * 0.8.
Definition carbonPriceImpact : Q := (carbon_price params - 1000) / 1000 * 0.3.
Definition greenInvestmentBenefit : Q := green_investment_growth params * 0.02.
Definition fossilPhaseOutCost : Q := fossil_phase_out params * 0.15.
Definition waterStressImpact : Q := water_stress_level params / 100 * 0.5.
Definition disasterImpact : Q := (disaster_frequency params - 1) * 1.2.

(* Projected metrics *)
Definition projectedNPA : Q :=
  Qmax 0 (baseNPA + temperatureImpact + waterStressImpact + disasterImpact
          - greenInvestmentBenefit).
Definition projectedGDP : Q :=
  Qmax 0 (baseGDP - temperatureImpact * 0.5 - fossilPhaseOutCost * 0.3
          - disasterImpact * 0.4 + greenInvestmentBenefit * 0.2).
Definition projectedExpectedLoss : Q :=
  baseExpectedLoss * (1 + temperatureImpact * 0.2 + disasterImpact * 0.15).
Definition projectedGreenFinance : Q :=
  baseGreenFinance + green_investment_growth params * 0.5.

(* Risk scores *)
Definition physicalRisk : Q :=
  Qmin 100 ((temperatureImpact + waterStressImpact + disasterImpact) * 25 + 30).
Definition transitionRisk : Q :=
  Qmin 100 ((carbonPriceImpact + fossilPhaseOutCost) * 20 + 25).
Definition financialRisk : Q :=
  Qmin 100 ((projectedNPA / baseNPA - 1) * 50 + 40).
Definition operationalRisk : Q :=
  Qmin 100 ((disasterImpact + waterStressImpact) * 30 + 20).
Definition regulatoryRisk : Q :=
  Qmin 100 ((carbon_price params / 1000) * 15 + 30).

(* Overall stress score *)
Definition overallStressScore : Q :=
  (physicalRisk + transitionRisk + financialRisk + operationalRisk
   + regulatoryRisk) / 5.

(* Capital adequacy impact *)
Definition capitalImpact : Q :=
  -1 * (temperatureImpact + transitionRisk / 100) * 2.

(* Liquidity stress *)
Definition liquidityStress : Q :=
  Qmin 100 (disasterImpact * 20 + waterStressImpact * 15 + 25).

Definition calculateStressOutcomes : StressReport :=
  {| baseline :=
       {| npa_ratio := baseNPA;
          gdp_growth := baseGDP;
          expected_loss := baseExpectedLoss;
          green_finance_share := baseGreenFinance;
          capital_ratio := 15.5;
          liquidity_coverage := 135 |};
     projected :=
       {| npa_ratio := Js.parseFloat (Js.toFixed projectedNPA 2);
          gdp_growth := Js.parseFloat (Js.toFixed projectedGDP 2);
          expected_loss := Js.parseFloat (Js.toFixed projectedExpectedLoss 0);
          green_finance_share :=
            Js.parseFloat (Js.toFixed projectedGreenFinance 1);
          capital_ratio := Js.parseFloat (Js.toFixed (15.5 + capitalImpact) 2);
          liquidity_coverage :=
            Js.parseFloat (Js.toFixed (135 - liquidityStress * 0.5) 0) |};
     risk_scores :=
       {| physical := Js.parseFloat (Js.toFixed physicalRisk 1);
          transition := Js.parseFloat (Js.toFixed transitionRisk 1);
          financial := Js.parseFloat (Js.toFixed financialRisk 1);
          operational := Js.parseFloat (Js.toFixed operationalRisk 1);
          regulatory := Js.parseFloat (Js.toFixed regulatoryRisk 1);
          overall := Js.parseFloat (Js.toFixed overallStressScore 1) |};
     changes :=
       {| npa_change := Js.parseFloat (Js.toFixed (projectedNPA - baseNPA) 2);
          gdp_change := Js.parseFloat (Js.toFixed (projectedGDP - baseGDP) 2);
          loss_change_pct :=
            Js.parseFloat
              (Js.toFixed ((projectedExpectedLoss - baseExpectedLoss)
                           / baseExpectedLoss * 100) 1) |};
     stress_level :=
       if Js.gt overallStressScore 70 then "Severe"
       else if Js.gt overallStressScore 50 then "High"
       else if Js.gt overallStressScore 30 then "Moderate"
       else "Low";
     capital_adequacy :=
       if Js.ge (15.5 + capitalImpact) 11.5 then "Adequate"
       else if Js.ge (15.5 + capitalImpact) 9 then "Watch"
       else "Critical" |}.

End Outcomes.

(** ** Recommendations rendered from the report *)

Definition physicalAdvice : string :=
  "Increase physical risk provisions and review exposure to climate-vulnerable assets".
Definition transitionAdvice : string :=
  "Accelerate divestment from high-carbon sectors and increase green finance allocation".
Definition capitalAdvice : string :=
  "Consider capital buffer enhancement to maintain regulatory requirements".
Definition creditAdvice : string :=
  "Implement enhanced credit monitoring for climate-sensitive sectors".
Definition monitoringAdvice : string :=
  "Continue monitoring and run quarterly stress tests with updated parameters".
Definition portfolioAdvice : string :=
  "Maintain diversified portfolio across climate-resilient sectors".

(** [cond && <li>...</li>] inside the list: the item is rendered when the
    condition holds and nothing is rendered otherwise. *)
Definition shown (cond : bool) (item : string) : list string :=
  if cond then [item] else [].

Definition recommendations (stressOutcomes : StressReport) : list string :=
  shown (Js.gt (physical (risk_scores stressOutcomes)) 50) physicalAdvice
  ++ shown (Js.gt (transition (risk_scores stressOutcomes)) 50) transitionAdvice
  ++ shown (Js.lt (capital_ratio (projected stressOutcomes)) 12) capitalAdvice
  ++ shown (Js.gt (npa_change (changes stressOutcomes)) 1) creditAdvice
  ++ [monitoringAdvice; portfolioAdvice].

(** ** The formulas of the specification

    Written from the text of the specification (section 4.3), to be compared
    with the definitions above, which are written from the source. *)

Module Spec.

Definition temperature_impact (p : StressParameters) : Q :=
  (temperature_rise p - 1.5) ^ 2 * 0.8.
Definition carbon_price_impact (p : StressParameters) : Q :=
  (carbon_price p - 1000) / 1000 * 0.3.
Definition green_investment_benefit (p : StressParameters) : Q :=
  green_investment_growth p * 0.02.
Definition fossil_phase_out_cost (p : StressParameters) : Q :=
  fossil_phase_out p * 0.15.
Definition water_stress_impact (p : StressParameters) : Q :=
  water_stress_level p / 100 * 0.5.
Definition disaster_impact (p : StressParameters) : Q :=
  (disaster_frequency p - 1) * 1.2.

Definition baseline_npa : Q := 2.5.
Definition baseline_gdp : Q := 6.5.
Definition baseline_expected_loss : Q := 15000.

Definition projected_npa (p : StressParameters) : Q :=
  Qmax 0 (baseline_npa + temperature_impact p + water_stress_impact p
          + disaster_impact p - green_investment_benefit p).
Definition projected_gdp (p : StressParameters) : Q :=
  Qmax 0 (baseline_gdp - 0.5 * temperature_impact p
          - 0.3 * fossil_phase_out_cost p - 0.4 * disaster_impact p
          + 0.2 * green_investment_benefit p).
Definition projected_expected_loss (p : StressParameters) : Q :=
  baseline_expected_loss
  * (1 + 0.2 * temperature_impact p + 0.15 * disaster_impact p).

(** Section 4.4: the two classifiers, by cases on the real line. *)
Inductive stress_level_is (overall : Q) : string -> Prop :=
| sl_severe : 70 < overall -> stress_level_is overall "Severe"
| sl_high : ~ 70 < overall -> 50 < overall -> stress_level_is overall "High"
| sl_moderate :
    ~ 70 < overall -> ~ 50 < overall -> 30 < overall ->
    stress_level_is overall "Moderate"
| sl_low :
    ~ 70 < overall -> ~ 50 < overall -> ~ 30 < overall ->
    stress_level_is overall "Low".

Inductive capital_adequacy_is (ratio : Q) : string -> Prop :=
| ca_adequate : 11.5 <= ratio -> capital_adequacy_is ratio "Adequate"
| ca_watch : ~ 11.5 <= ratio -> 9 <= ratio -> capital_adequacy_is ratio "Watch"
| ca_critical :
    ~ 11.5 <= ratio -> ~ 9 <= ratio -> capital_adequacy_is ratio "Critical".

(** The rounding policy as the specification words it: two decimals for
    ratios and scores, none for currency and loss figures, one for
    percentage shares. *)
Definition score_decimals : nat := 2.
Definition ratio_decimals : nat := 2.
Definition currency_decimals : nat := 0.
Definition share_decimals : nat := 1.

End Spec.

(** ** Inputs used in the statements below *)

Definition climateCrisis : StressParameters := mkParams 3.5 500 5 1 80 2.5.
Definition businessAsUsual : StressParameters := mkParams 2.5 800 10 2 55 1.8.

(** Overall score exactly 70, and exactly 70.01. *)
Definition atSevereThreshold : StressParameters := mkParams 3.5 500 5 1.5 80 2.5.
Definition pastSevereThreshold : StressParameters :=
  mkParams 2.5 500 1 1.65 80 2.5.

(** Projected capital ratio exactly 11.5, and exactly 11.49. *)
Definition atAdequateThreshold : StressParameters :=
  mkParams 2.75 3500 20 (35 # 3) 45 1.5.
Definition underAdequateThreshold : StressParameters :=
  mkParams 2.7 3600 20 14.9 45 1.5.

(** The upper end of every physical driver. *)
Definition extremes : StressParameters := mkParams 4.0 5000 0 15 100 3.0.

(** Two inputs on either side of the physical-risk rule whose reports agree
    on every other field the recommendation rules read. *)
Definition physicalAtFifty : StressParameters := mkParams 1.5 1000 20 5 40 1.5.
Definition physicalPastFifty : StressParameters := mkParams 1.5 1000 21 5 44 1.5.

(** The defaults with the temperature rise moved to the top of its range. *)
Definition hotDefaults : StressParameters := mkParams 4.0 1000 20 5 45 1.5.

(** Two parameter vectors agree on every field except [temperature_rise]. *)
Definition same_but_temperature (p q : StressParameters) : Prop :=
  carbon_price p == carbon_price q /\
  green_investment_growth p == green_investment_growth q /\
  fossil_phase_out p == fossil_phase_out q /\
  water_stress_level p == water_stress_level q /\
  disaster_frequency p == disaster_frequency q.

(** Two reports agree on the fields read by the recommendation rules other
    than the physical-risk rule. *)
Definition same_but_physical (r1 r2 : StressReport) : Prop :=
  transition (risk_scores r1) == transition (risk_scores r2) /\
  capital_ratio (projected r1) == capital_ratio (projected r2) /\
  npa_change (changes r1) == npa_change (changes r2).

(** In range, overall score 70.02: shown as 70 in the report. *)
Definition nearSevere : StressParameters := mkParams 1 500 20 0 90 2.9.

(** In range, projected capital ratio 11.496: shown as 11.5 in the report. *)
Definition nearAdequate : StressParameters := mkParams 2.7 3500 0 15 0 1.

(** ** The same computation on binary64 numbers

    The impact terms, the projections, the scores and the labels are
    computed here with the primitive binary64 operations, as the JavaScript
    engine does.  [Math.pow(x, 2)] is taken to be the correctly rounded
    square [x * x]. *)

Module Binary64.

#[local] Set Warnings "-inexact-float".

Record StressParameters : Set := mkParams {
  temperature_rise : float;
  carbon_price : float;
  green_investment_growth : float;
  fossil_phase_out : float;
  water_stress_level : float;
  disaster_frequency : float
}.

(** [Math.max(0, x)] and [Math.min(100, x)]; a NaN argument is returned. *)
Definition max0 (x : float) : float := if (x <=? 0)%float then 0%float else x.
Definition min100 (x : float) : float :=
  if (100 <=? x)%float then 100%float else x.

(** The rational number denoted by a finite double. *)
Definition exact (x : float) : option Q :=
  match Prim2SF x with
  | S754_zero _ => Some 0
  | S754_finite s m e =>
      let v := inject_Z (Zpos m) * Qpower 2 e in
      Some (if s then - v else v)
  | S754_infinity _ | S754_nan => None
  end.

Section Outcomes.

Variable params : StressParameters.

Local Open Scope float_scope.

Definition baseNPA : float := 2.5.

Definition temperatureImpact : float :=
  (temperature_rise params - 1.5) * (temperature_rise params - 1.5) * 0.8.
Definition carbonPriceImpact : float := (carbon_price params - 1000) / 1000 * 0.3.
Definition greenInvestmentBenefit : float :=
  green_investment_growth params * 0.02.
Definition fossilPhaseOutCost : float := fossil_phase_out params * 0.15.
Definition waterStressImpact : float := water_stress_level params / 100 * 0.5.
Definition disasterImpact : float := (disaster_frequency params - 1) * 1.2.

Definition projectedNPA : float :=
  max0 (baseNPA + temperatureImpact + waterStressImpact + disasterImpact
        - greenInvestmentBenefit).

Definition physicalRisk : float :=
  min100 ((temperatureImpact + waterStressImpact + disasterImpact) * 25 + 30).
Definition transitionRisk : float :=
  min100 ((carbonPriceImpact + fossilPhaseOutCost) * 20 + 25).
Definition financialRisk : float :=
  min100 ((projectedNPA / baseNPA - 1) * 50 + 40).
Definition operationalRisk : float :=
  min100 ((disasterImpact + waterStressImpact) * 30 + 20).
Definition regulatoryRisk : float :=
  min100 ((carbon_price params / 1000) * 15 + 30).

Definition overallStressScore : float :=
  (physicalRisk + transitionRisk + financialRisk + operationalRisk
   + regulatoryRisk) / 5.

Definition capitalImpact : float :=
  -1 * (temperatureImpact + transitionRisk / 100) * 2.

Definition stress_level : string :=
  if 70 <? overallStressScore then "Severe"
  else if 50 <? overallStressScore then "High"
  else if 30 <? overallStressScore then "Moderate"
  else "Low".

Definition capital_adequacy : string :=
  if 11.5 <=? 15.5 + capitalImpact then "Adequate"
  else if 9 <=? 15.5 + capitalImpact then "Watch"
  else "Critical".

(** The digits printed by [overallStressScore.toFixed(1)] and by
    [(15.5 + capitalImpact).toFixed(2)]. *)
Definition overall_shown : option Js.Numeral :=
  option_map (fun x => Js.toFixed x 1) (exact overallStressScore).
Definition capital_ratio_shown : option Js.Numeral :=
  option_map (fun x => Js.toFixed x 2) (exact (15.5 + capitalImpact)).

(** The other two projections that have a formula in the specification. *)
Definition baseGDP : float := 6.5.
Definition baseExpectedLoss : float := 15000.

Definition projectedGDP : float :=
  max0 (baseGDP - temperatureImpact * 0.5 - fossilPhaseOutCost * 0.3
        - disasterImpact * 0.4 + greenInvestmentBenefit * 0.2).
Definition projectedExpectedLoss : float :=
  baseExpectedLoss * (1 + temperatureImpact * 0.2 + disasterImpact * 0.15).

(** The digits printed by [projectedNPA.toFixed(2)], [projectedGDP.toFixed(2)]
    and [projectedExpectedLoss.toFixed(0)]. *)
Definition npa_ratio_shown : option Js.Numeral :=
  option_map (fun x => Js.toFixed x 2) (exact projectedNPA).
Definition gdp_growth_shown : option Js.Numeral :=
  option_map (fun x => Js.toFixed x 2) (exact projectedGDP).
Definition expected_loss_shown : option Js.Numeral :=
  option_map (fun x => Js.toFixed x 0) (exact projectedExpectedLoss).

End Outcomes.

Definition climateCrisis : StressParameters := mkParams 3.5 500 5 1 80 2.5.
Definition nearSevere : StressParameters := mkParams 1 500 20 0 90 2.9.
Definition nearAdequate : StressParameters := mkParams 2.7 3500 0 15 0 1.
Definition businessAsUsual : StressParameters := mkParams 2.5 800 10 2 55 1.8.
Definition hotDefaults : StressParameters := mkParams 4.0 1000 20 5 45 1.5.

(** The formulas of the specification (section 4.3) evaluated on doubles,
    written from its text: each product with the constant first, the
    square as the product of the difference with itself. *)
Module Spec.

Local Open Scope float_scope.

Definition temperature_impact (p : StressParameters) : float :=
  (temperature_rise p - 1.5) * (temperature_rise p - 1.5) * 0.8.
Definition carbon_price_impact (p : StressParameters) : float :=
  (carbon_price p - 1000) / 1000 * 0.3.
Definition green_investment_benefit (p : StressParameters) : float :=
  green_investment_growth p * 0.02.
Definition fossil_phase_out_cost (p : StressParameters) : float :=
  fossil_phase_out p * 0.15.
Definition water_stress_impact (p : StressParameters) : float :=
  water_stress_level p / 100 * 0.5.
Definition disaster_impact (p : StressParameters) : float :=
  (disaster_frequency p - 1) * 1.2.

Definition baseline_npa : float := 2.5.
Definition baseline_gdp : float := 6.5.
Definition baseline_expected_loss : float := 15000.

Definition projected_npa (p : StressParameters) : float :=
  max0 (baseline_npa + temperature_impact p + water_stress_impact p
        + disaster_impact p - green_investment_benefit p).
Definition projected_gdp (p : StressParameters) : float :=
  max0 (baseline_gdp - 0.5 * temperature_impact p
        - 0.3 * fossil_phase_out_cost p - 0.4 * disaster_impact p
        + 0.2 * green_investment_benefit p).
Definition projected_expected_loss (p : StressParameters) : float :=
  baseline_expected_loss
  * (1 + 0.2 * temperature_impact p + 0.15 * disaster_impact p).

End Spec.

(** [RiskGauge] on doubles: [percentage] and the two numbers of the
    [strokeDasharray] attribute. *)
Module RiskGauge.

Local Open Scope float_scope.

Definition defaultMaxValue : float := 100.

Definition percentage (value maxValue : float) : float :=
  (value / maxValue) * 100.

Definition strokeDasharray (value maxValue : float) : float * float :=
  (percentage value maxValue * 2.2, 220).

End RiskGauge.

End Binary64.

(** ** The Scenarios page around the engine *)

(** *** The [stressParams] state object *)

(** A JavaScript object whose properties hold numbers, in insertion order. *)
Definition JsObject : Set := list (string * Q).

(** [o[key]]; [None] stands for [undefined]. *)
Fixpoint getProperty (o : JsObject) (key : string) : option Q :=
  match o with
  | [] => None
  | (k, v) :: rest => if String.eqb k key then Some v else getProperty rest key
  end.

(** [o[key] = value] and [{...o, [key]: value}]: a property that exists
    keeps its place, a new one is added last. *)
Fixpoint setProperty (o : JsObject) (key : string) (value : Q) : JsObject :=
  match o with
  | [] => [(key, value)]
  | (k, v) :: rest =>
      if String.eqb k key then (k, value) :: rest
      else (k, v) :: setProperty rest key value
  end.

(** An object literal with the six parameter properties. *)
Definition toObject (p : StressParameters) : JsObject :=
  [ ("temperature_rise", temperature_rise p);
    ("carbon_price", carbon_price p);
    ("green_investment_growth", green_investment_growth p);
    ("fossil_phase_out", fossil_phase_out p);
    ("water_stress_level", water_stress_level p);
    ("disaster_frequency", disaster_frequency p) ]%string.

(** The destructuring at the head of [calculateStressOutcomes]; [None] when
    one of the six properties is [undefined]. *)
Definition fromObject (o : JsObject) : option StressParameters :=
  match getProperty o "temperature_rise", getProperty o "carbon_price",
        getProperty o "green_investment_growth",
        getProperty o "fossil_phase_out", getProperty o "water_stress_level",
        getProperty o "disaster_frequency" with
  | Some t, Some c, Some g, Some f, Some w, Some d =>
      Some (mkParams t c g f w d)
  | _, _, _, _, _, _ => None
  end.

(** [Object.entries(STRESS_TEST_PARAMS)]. *)
Definition STRESS_TEST_PARAMS_entries : list (string * ParamConfig) :=
  [ ("temperature_rise", STRESS_TEST_PARAMS.temperature_rise);
    ("carbon_price", STRESS_TEST_PARAMS.carbon_price);
    ("green_investment_growth", STRESS_TEST_PARAMS.green_investment_growth);
    ("fossil_phase_out", STRESS_TEST_PARAMS.fossil_phase_out);
    ("water_stress_level", STRESS_TEST_PARAMS.water_stress_level);
    ("disaster_frequency", STRESS_TEST_PARAMS.disaster_frequency) ]%string.

(** [STRESS_TEST_PARAMS[key]]. *)
Definition STRESS_TEST_PARAMS_at (key : string) : option ParamConfig :=
  option_map snd
    (find (fun e => String.eqb (fst e) key) STRESS_TEST_PARAMS_entries).

(** The argument of [useState] for [stressParams]. *)
Definition initialStressParams : JsObject :=
  toObject (mkParams 1.5 1000 20 5 45 1.5).

(** [handleParamChange]: [setStressParams(prev => ({ ...prev, [key]: value }))]. *)
Definition handleParamChange (key : string) (value : Q) (prev : JsObject)
  : JsObject :=
  setProperty prev key value.

(** [applyPreset]: [setStressParams(preset.params)]. *)
Definition applyPreset (preset : Preset) : JsObject := toObject (params preset).

(** [resetParams]: an empty object filled key by key with the [default] of
    each catalogue entry.  The keys come from the catalogue itself, so the
    lookup of an entry cannot fail. *)
Definition resetParams : JsObject :=
  fold_left
    (fun defaults key =>
       match STRESS_TEST_PARAMS_at key with
       | Some config => setProperty defaults key (default config)
       | None => defaults
       end)
    (map fst STRESS_TEST_PARAMS_entries) [].

(** What the controls of the stress-test tab do to the state. *)
Inductive Event : Set :=
| SliderChange (paramKey : string) (value : Q)
| PresetClick (preset : Preset)
| ResetClick.

Definition handle (stressParams : JsObject) (e : Event) : JsObject :=
  match e with
  | SliderChange paramKey value => handleParamChange paramKey value stressParams
  | PresetClick preset => applyPreset preset
  | ResetClick => resetParams
  end.

(** The events the page can produce: a slider is rendered for each catalogue
    entry and its range input delivers a value between the entry's [min] and
    [max]; a preset button is rendered for each element of
    [presetScenarios]. *)
Definition produced (e : Event) : Prop :=
  match e with
  | SliderChange paramKey value =>
      exists config,
        STRESS_TEST_PARAMS_at paramKey = Some config /\ within config value
  | PresetClick preset => In preset presetScenarios
  | ResetClick => True
  end.

(** The state after a sequence of events. *)
Definition stateAfter (events : list Event) : JsObject :=
  fold_left handle events initialStressParams.

(** [stressOutcomes]: the memoised report of the current state. *)
Definition stressOutcomes (stressParams : JsObject) : option StressReport :=
  option_map calculateStressOutcomes (fromObject stressParams).

(** *** [ParamSlider] *)

Module ParamSlider.

(** The filled share of the track, in percent. *)
Definition percentage (config : ParamConfig) (value : Q) : Q :=
  ((value - min config) / (max config - min config)) * 100.

End ParamSlider.

(** *** Chart data *)

(** [riskRadarData.datasets[0].data]. *)
Definition riskRadarData (stressOutcomes : StressReport) : list Q :=
  [ physical (risk_scores stressOutcomes);
    transition (risk_scores stressOutcomes);
    financial (risk_scores stressOutcomes);
    operational (risk_scores stressOutcomes);
    regulatory (risk_scores stressOutcomes) ].

(** [comparisonChartData]: the data of the "Baseline" and of the "Stressed"
    series. *)
Definition comparisonChartData (stressOutcomes : StressReport)
  : list Q * list Q :=
  ( [ npa_ratio (baseline stressOutcomes);
      gdp_growth (baseline stressOutcomes);
      green_finance_share (baseline stressOutcomes);
      capital_ratio (baseline stressOutcomes) ],
    [ npa_ratio (projected stressOutcomes);
      gdp_growth (projected stressOutcomes);
      green_finance_share (projected stressOutcomes);
      capital_ratio (projected stressOutcomes) ] ).

(** The data of the five gauges, in the order they are rendered. *)
Definition gaugeValues (stressOutcomes : StressReport) : list Q :=
  riskRadarData stressOutcomes.

(** *** Conditional styling of the results *)

(** The colour class of the overall figure. *)
Definition overallClass (stressOutcomes : StressReport) : string :=
  if Js.gt (overall (risk_scores stressOutcomes)) 70 then "text-red-500"
  else if Js.gt (overall (risk_scores stressOutcomes)) 50 then "text-orange-500"
  else if Js.gt (overall (risk_scores stressOutcomes)) 30 then "text-yellow-500"
  else "text-green-500".

(** The colour classes of the stress-level badge. *)
Definition badgeClass (stressOutcomes : StressReport) : string :=
  if String.eqb (stress_level stressOutcomes) "Severe"
  then "bg-red-100 text-red-700"
  else if String.eqb (stress_level stressOutcomes) "High"
  then "bg-orange-100 text-orange-700"
  else if String.eqb (stress_level stressOutcomes) "Moderate"
  then "bg-yellow-100 text-yellow-700"
  else "bg-green-100 text-green-700".

(** The rows of the financial impact card: colour class of the projected
    NPA and GDP figures. *)
Definition npaClass (stressOutcomes : StressReport) : string :=
  if Js.gt (npa_change (changes stressOutcomes)) 0
  then "text-red-600" else "text-green-600".

Definition gdpClass (stressOutcomes : StressReport) : string :=
  if Js.lt (gdp_change (changes stressOutcomes)) 0
  then "text-red-600" else "text-green-600".

(** *** Orders and inputs used in the statements on the page *)

(** The full list of recommendation texts, in rendering order. *)
Definition allAdvice : list string :=
  [ physicalAdvice; transitionAdvice; capitalAdvice; creditAdvice;
    monitoringAdvice; portfolioAdvice ].

(** [sub] is obtained from [full] by leaving entries out. *)
Fixpoint sublist (sub full : list string) : bool :=
  match sub, full with
  | [], _ => true
  | _ :: _, [] => false
  | x :: sub', y :: full' =>
      if String.eqb x y then sublist sub' full' else sublist sub full'
  end.

(** [q] is at least as stressed as [p] in every driver: no lower carbon
    price, phase-out rate, water stress and disaster frequency, no higher
    green investment growth, and a temperature rise that is no lower, both
    rises being at least 1.5. *)
Definition at_least_as_stressed (p q : StressParameters) : Prop :=
  1.5 <= temperature_rise p /\ temperature_rise p <= temperature_rise q /\
  carbon_price p <= carbon_price q /\
  green_investment_growth q <= green_investment_growth p /\
  fossil_phase_out p <= fossil_phase_out q /\
  water_stress_level p <= water_stress_level q /\
  disaster_frequency p <= disaster_frequency q.

(** The in-range vector with the lowest overall score; the highest is
    reached at [extremes]. *)
Definition calmest : StressParameters := mkParams 1.5 500 50 0 0 1.

(** The record [p] with the field named [key] replaced by [value]; any
    other key leaves the six fields as they are. *)
Definition withParam (p : StressParameters) (key : string) (value : Q)
  : StressParameters :=
  if String.eqb key "temperature_rise" then
    mkParams value (carbon_price p) (green_investment_growth p)
      (fossil_phase_out p) (water_stress_level p) (disaster_frequency p)
  else if String.eqb key "carbon_price" then
    mkParams (temperature_rise p) value (green_investment_growth p)
      (fossil_phase_out p) (water_stress_level p) (disaster_frequency p)
  else if String.eqb key "green_investment_growth" then
    mkParams (temperature_rise p) (carbon_price p) value
      (fossil_phase_out p) (water_stress_level p) (disaster_frequency p)
  else if String.eqb key "fossil_phase_out" then
    mkParams (temperature_rise p) (carbon_price p) (green_investment_growth p)
      value (water_stress_level p) (disaster_frequency p)
  else if String.eqb key "water_stress_level" then
    mkParams (temperature_rise p) (carbon_price p) (green_investment_growth p)
      (fossil_phase_out p) value (disaster_frequency p)
  else if String.eqb key "disaster_frequency" then
    mkParams (temperature_rise p) (carbon_price p) (green_investment_growth p)
      (fossil_phase_out p) (water_stress_level p) value
  else p.

(** A sequence of events on the tab: a preset, two sliders, a reset, a
    slider. *)
Definition sampleSession : list Event :=
  [ PresetClick (mkPreset "Climate Crisis" (mkParams 3.5 500 5 1 80 2.5)
                   "Worst-case climate scenario");
    SliderChange "carbon_price" 4200;
    SliderChange "temperature_rise" 2.3;
    ResetClick;
    SliderChange "water_stress_level" 100 ]%string.

(** ** The what-if tab of the Scenarios page *)

Module WhatIf.

(** An entry of the list served by [scenarioAPI.listScenarios]; the page
    reads these three properties. *)
Record Scenario : Set := mkScenario {
  id : string;
  name : string;
  severities : list string
}.

(** The body posted by [scenarioAPI.simulate]. *)
Record Request : Set := mkRequest {
  scenario_type : string;
  parameters_severity : string;
  base_date : string
}.

(** What a handler does besides updating the state. *)
Inductive Effect : Set :=
| Simulate (request : Request)
| ToastSuccess (message : string)
| ToastError (message : string)
| ConsoleError (message : string).

(** A severity the page can hold: the initial one or one offered by some
    scenario of the fetched list. *)
Definition known_severity (scenarios : list Scenario) (sev : string) : Prop :=
  sev = "moderate"%string \/
  exists scenario, In scenario scenarios /\ In sev (severities scenario).

(** A request that names a scenario of the fetched list and carries such a
    severity. *)
Definition known_request (scenarios : list Scenario) (r : Request) : Prop :=
  (exists scenario, In scenario scenarios /\ scenario_type r = id scenario) /\
  known_severity scenarios (parameters_severity r).

Section Page.

(** The payload of a simulation response, which the page only stores and
    renders. *)
Variable Results : Set.

Record State : Type := mkState {
  selectedScenario : option Scenario;
  severity : string;
  loading : bool;
  results : option Results
}.

(** The arguments of the four [useState] calls. *)
Definition initial : State := mkState None "moderate" false None.

(** [runSimulation] up to its [await]: [now] is [new Date().toISOString()]. *)
Definition runSimulation_call (now : string) (s : State)
  : State * list Effect :=
  match selectedScenario s with
  | None => (s, [ToastError "Please select a scenario"])
  | Some scenario =>
      (mkState (selectedScenario s) (severity s) true (results s),
       [Simulate (mkRequest (id scenario) (severity s) now)])
  end.

(** [runSimulation] from the settling of the request on: [Some data] when
    the promise resolves, [None] when it rejects. *)
Definition runSimulation_settled (outcome : option Results) (s : State)
  : State * list Effect :=
  match outcome with
  | Some data =>
      (mkState (selectedScenario s) (severity s) false (Some data),
       [ToastSuccess "Simulation completed!"])
  | None =>
      (mkState (selectedScenario s) (severity s) false (results s),
       [ConsoleError "Error running simulation:";
        ToastError "Simulation failed"])
  end.

Inductive Event : Type :=
| ClickScenario (scenario : Scenario)
| ClickSeverity (sev : string)
| ClickRun (now : string)
| Settled (outcome : option Results).

Definition handle (s : State) (e : Event) : State * list Effect :=
  match e with
  | ClickScenario scenario =>
      (mkState (Some scenario) (severity s) (loading s) (results s), [])
  | ClickSeverity sev =>
      (mkState (selectedScenario s) sev (loading s) (results s), [])
  | ClickRun now => runSimulation_call now s
  | Settled outcome => runSimulation_settled outcome s
  end.

(** The events the tab can produce in state [s], [scenarios] being the list
    fetched on mount: a card per scenario; a button per severity of the
    selected scenario; the run button, rendered once a scenario is selected
    and disabled while [loading]; and the settling of a request that is
    under way. *)
Definition produced (scenarios : list Scenario) (s : State) (e : Event)
  : Prop :=
  match e with
  | ClickScenario scenario => In scenario scenarios
  | ClickSeverity sev =>
      exists scenario,
        selectedScenario s = Some scenario /\ In sev (severities scenario)
  | ClickRun _ => selectedScenario s <> None /\ loading s = false
  | Settled _ => loading s = true
  end.

(** The states the tab reaches, with the effects so far, oldest first. *)
Inductive reaches (scenarios : list Scenario) : State -> list Effect -> Prop :=
| reaches_initial : reaches scenarios initial []
| reaches_event (s : State) (log : list Effect) (e : Event) :
    reaches scenarios s log ->
    produced scenarios s e ->
    reaches scenarios (fst (handle s e)) (log ++ snd (handle s e)).

(** The requests in a log, and the toasts that close a request. *)
Definition requests (log : list Effect) : list Request :=
  flat_map (fun e => match e with Simulate r => [r] | _ => [] end) log.

Definition closings (log : list Effect) : nat :=
  List.length
    (filter (fun e =>
               match e with
               | ToastSuccess m => String.eqb m "Simulation completed!"
               | ToastError m => String.eqb m "Simulation failed"
               | _ => false
               end) log).

End Page.

(** A fetched list used in the statements below: the second scenario does
    not offer the severity "severe". *)
Definition flood : Scenario :=
  mkScenario "flood" "Flood" ["mild"; "severe"]%string.
Definition drought : Scenario := mkScenario "drought" "Drought" ["mild"]%string.
Definition sampleScenarios : list Scenario := [flood; drought].

End WhatIf.

(** ** Proof steps used throughout *)

(** Splitting conjunctions, and nothing else. *)
Ltac split_all := repeat match goal with |- _ /\ _ => split end.

(** Membership of a concrete vector in the declared ranges. *)
Ltac in_range_tac :=
  unfold in_range, within; simpl; split_all; unfold Qle; simpl; lia.

(** Closed goals settled by running the engine. *)
Ltac by_evaluation := vm_compute; reflexivity.

(** The fields of the report of [calculateStressOutcomes], exposed. *)
Ltac report_fields :=
  unfold calculateStressOutcomes;
  cbn [baseline projected risk_scores changes stress_level capital_adequacy
       npa_ratio gdp_growth expected_loss green_finance_share capital_ratio
       liquidity_coverage physical transition financial operational
       regulatory overall npa_change gdp_change loss_change_pct].

(** Division by a literal, turned into a product for [lra]. *)
Ltac literal_division := unfold Qdiv in *; cbn [Qinv Qnum Qden] in *.

(** * Properties *)

(** ** Comparisons *)

Lemma gt_true (a b : Q) : Js.gt a b = true <-> b < a.
Proof.
  unfold Js.gt. rewrite negb_true_iff.
  split; intro H.
  - apply Qnot_le_lt. intro Hle. apply Qle_bool_iff in Hle. congruence.
  - destruct (Qle_bool a b) eqn:E; [|reflexivity].
    apply Qle_bool_iff in E. exfalso. apply (Qlt_not_le _ _ H E).
Qed.

Lemma gt_false (a b : Q) : Js.gt a b = false <-> a <= b.
Proof.
  unfold Js.gt. rewrite negb_false_iff. apply Qle_bool_iff.
Qed.

Lemma ge_true (a b : Q) : Js.ge a b = true <-> b <= a.
Proof. unfold Js.ge. apply Qle_bool_iff. Qed.

Lemma ge_false (a b : Q) : Js.ge a b = false <-> a < b.
Proof.
  unfold Js.ge. rewrite <- (gt_true b a). unfold Js.gt.
  destruct (Qle_bool b a); simpl; intuition congruence.
Qed.

Lemma lt_true (a b : Q) : Js.lt a b = true <-> a < b.
Proof. exact (gt_true b a). Qed.

Lemma lt_false (a b : Q) : Js.lt a b = false <-> b <= a.
Proof. exact (gt_false b a). Qed.

(** ** Decimal rounding: [parseFloat(x.toFixed(d))] *)

Lemma pow10_pos (d : nat) : 0 < Js.pow10 d.
Proof.
  unfold Js.pow10. change 0 with (inject_Z 0). rewrite <- Zlt_Qlt.
  apply Z.pow_pos_nonneg; lia.
Qed.

Lemma limit_pos : 0 < Js.limit.
Proof. reflexivity. Qed.

Lemma below_limit (x : Q) : Qabs x < Js.limit <-> - Js.limit < x /\ x < Js.limit.
Proof. apply Qabs_Qlt_condition. Qed.

Lemma beyond_limit (x : Q) :
  Js.limit <= Qabs x -> x <= - Js.limit \/ Js.limit <= x.
Proof.
  apply Qabs_case; intros H0 H; [right; exact H | left; lra].
Qed.

(** Every quantity of the engine is far below the limit. *)
Lemma million_below_limit (x : Q) :
  -1000000 <= x -> x <= 1000000 -> Qabs x < Js.limit.
Proof.
  intros Hlo Hhi. apply below_limit.
  assert (H : 1000000 < Js.limit) by reflexivity.
  split; lra.
Qed.

(** The digits chosen by [toFixed] are within half a unit of the scaled
    argument. *)
Lemma nearest_bounds (x : Q) (d : nat) :
  x * Js.pow10 d - 0.5 < inject_Z (Js.nearest x d) /\
  inject_Z (Js.nearest x d) <= x * Js.pow10 d + 0.5.
Proof.
  unfold Js.nearest.
  pose proof (Qfloor_le (x * Js.pow10 d + 0.5)) as Hlo.
  pose proof (Qlt_floor (x * Js.pow10 d + 0.5)) as Hhi.
  rewrite inject_Z_plus in Hhi. change (inject_Z 1) with 1 in Hhi.
  split; lra.
Qed.

Lemma nearest_mono (x y : Q) (d : nat) :
  x <= y -> (Js.nearest x d <= Js.nearest y d)%Z.
Proof.
  intro H. unfold Js.nearest. apply Qfloor_resp_le.
  pose proof (pow10_pos d). nra.
Qed.

Lemma nearest_nonneg (x : Q) (d : nat) : 0 <= x -> (0 <= Js.nearest x d)%Z.
Proof.
  intro H. change 0%Z with (Qfloor 0). unfold Js.nearest.
  apply Qfloor_resp_le. pose proof (pow10_pos d). nra.
Qed.

(** An integer within half a unit of [n + 0.5] from below is [n]. *)
Lemma floor_half (n : Z) : Qfloor (inject_Z n + 0.5) = n.
Proof.
  pose proof (Qfloor_le (inject_Z n + 0.5)) as Hlo.
  pose proof (Qlt_floor (inject_Z n + 0.5)) as Hhi.
  rewrite inject_Z_plus in Hhi. change (inject_Z 1) with 1 in Hhi.
  assert (H1 : (Qfloor (inject_Z n + 0.5) < n + 1)%Z).
  { rewrite Zlt_Qlt, inject_Z_plus. change (inject_Z 1) with 1. lra. }
  assert (H2 : (n < Qfloor (inject_Z n + 0.5) + 1)%Z).
  { rewrite Zlt_Qlt, inject_Z_plus. change (inject_Z 1) with 1. lra. }
  lia.
Qed.

Lemma nearest_decimal (n : Z) (d : nat) :
  Js.nearest (inject_Z n / Js.pow10 d) d = n.
Proof.
  unfold Js.nearest. pose proof (pow10_pos d) as Hs.
  assert (E : inject_Z n / Js.pow10 d * Js.pow10 d + 0.5 == inject_Z n + 0.5)
    by (field; lra).
  rewrite E. apply floor_half.
Qed.

(** Below the limit the printed digits do not exceed it. *)
Lemma nearest_limit (x : Q) (d : nat) :
  x < Js.limit -> inject_Z (Js.nearest x d) / Js.pow10 d <= Js.limit.
Proof.
  intro H. pose proof (pow10_pos d) as Hs.
  apply Qle_shift_div_r; [assumption|].
  destruct (nearest_bounds x d) as [_ Hhi].
  assert (E : Js.limit * Js.pow10 d
              == inject_Z (10 ^ 21 * 10 ^ Z.of_nat d)).
  { unfold Js.limit, Js.pow10. now rewrite inject_Z_mult. }
  rewrite E. rewrite <- Zle_Qle.
  apply Z.lt_succ_r. rewrite Zlt_Qlt. unfold Z.succ.
  rewrite inject_Z_plus, <- E. change (inject_Z 1) with 1. nra.
Qed.

Lemma fixed_large (x : Q) (d : nat) : Js.limit <= Qabs x -> Js.fixed x d == x.
Proof.
  intro H. unfold Js.toFixed. apply ge_true in H. rewrite H. reflexivity.
Qed.

Lemma fixed_nonneg_eq (x : Q) (d : nat) :
  0 <= x -> x < Js.limit ->
  Js.fixed x d == inject_Z (Js.nearest x d) / Js.pow10 d.
Proof.
  intros H HL. unfold Js.toFixed.
  assert (E : Js.ge (Qabs x) Js.limit = false).
  { apply ge_false. now rewrite (Qabs_pos x H). }
  rewrite E. apply lt_false in H. rewrite H. reflexivity.
Qed.

Lemma fixed_neg_eq (x : Q) (d : nat) :
  x < 0 -> - Js.limit < x ->
  Js.fixed x d == - (inject_Z (Js.nearest (- x) d) / Js.pow10 d).
Proof.
  intros H HL. unfold Js.toFixed.
  assert (E : Js.ge (Qabs x) Js.limit = false).
  { apply ge_false. rewrite (Qabs_neg x); lra. }
  rewrite E. apply lt_true in H. rewrite H. reflexivity.
Qed.

Lemma scaled_nonneg (n : Z) (d : nat) :
  (0 <= n)%Z -> 0 <= inject_Z n / Js.pow10 d.
Proof.
  intro H. apply Qle_shift_div_l; [apply pow10_pos|].
  rewrite Qmult_0_l. change 0 with (inject_Z 0). now rewrite <- Zle_Qle.
Qed.

Lemma scaled_mono (n m : Z) (d : nat) :
  (n <= m)%Z -> inject_Z n / Js.pow10 d <= inject_Z m / Js.pow10 d.
Proof.
  intro H. pose proof (pow10_pos d) as Hs.
  apply Qle_shift_div_l; [assumption|].
  assert (E : inject_Z n / Js.pow10 d * Js.pow10 d == inject_Z n)
    by (field; lra).
  rewrite E. now rewrite <- Zle_Qle.
Qed.

(** Below the limit the rounded value stays within it. *)
Lemma fixed_small_bounds (x : Q) (d : nat) :
  Qabs x < Js.limit ->
  (0 <= x -> 0 <= Js.fixed x d /\ Js.fixed x d <= Js.limit) /\
  (x < 0 -> - Js.limit <= Js.fixed x d /\ Js.fixed x d <= 0).
Proof.
  intro H. apply below_limit in H. destruct H as [Hlo Hhi]. split; intro Hx.
  - rewrite (fixed_nonneg_eq _ _ Hx Hhi). split.
    + apply scaled_nonneg, nearest_nonneg, Hx.
    + apply nearest_limit, Hhi.
  - rewrite (fixed_neg_eq _ _ Hx Hlo).
    pose proof (scaled_nonneg _ d (nearest_nonneg (- x) d ltac:(lra))).
    pose proof (nearest_limit (- x) d ltac:(lra)).
    split; lra.
Qed.

Lemma fixed_mono_small (x y : Q) (d : nat) :
  Qabs x < Js.limit -> Qabs y < Js.limit ->
  x <= y -> Js.fixed x d <= Js.fixed y d.
Proof.
  intros Sx Sy Hxy.
  destruct (fixed_small_bounds x d Sx) as [Bx Bx'].
  destruct (fixed_small_bounds y d Sy) as [By By'].
  apply below_limit in Sx, Sy. destruct Sx as [Lx Ux], Sy as [Ly Uy].
  destruct (Qlt_le_dec x 0) as [Hx|Hx]; destruct (Qlt_le_dec y 0) as [Hy|Hy].
  - rewrite (fixed_neg_eq _ _ Hx Lx), (fixed_neg_eq _ _ Hy Ly).
    apply Qopp_le_compat, scaled_mono, nearest_mono. lra.
  - specialize (Bx' Hx). specialize (By Hy). lra.
  - lra.
  - rewrite (fixed_nonneg_eq _ _ Hx Ux), (fixed_nonneg_eq _ _ Hy Uy).
    apply scaled_mono, nearest_mono, Hxy.
Qed.

(** Rounding preserves the order. *)
Lemma fixed_mono (x y : Q) (d : nat) : x <= y -> Js.fixed x d <= Js.fixed y d.
Proof.
  intro Hxy.
  destruct (Qlt_le_dec (Qabs x) Js.limit) as [Sx|Gx];
    destruct (Qlt_le_dec (Qabs y) Js.limit) as [Sy|Gy].
  - now apply fixed_mono_small.
  - rewrite (fixed_large y d Gy).
    destruct (fixed_small_bounds x d Sx) as [Bx Bx'].
    apply below_limit in Sx. destruct Sx as [Lx Ux].
    destruct (beyond_limit y Gy) as [Hy|Hy]; [lra|].
    destruct (Qlt_le_dec x 0) as [Hx|Hx];
      [specialize (Bx' Hx) | specialize (Bx Hx)]; lra.
  - rewrite (fixed_large x d Gx).
    destruct (fixed_small_bounds y d Sy) as [By By'].
    apply below_limit in Sy. destruct Sy as [Ly Uy].
    destruct (beyond_limit x Gx) as [Hx|Hx]; [|lra].
    pose proof limit_pos.
    destruct (Qlt_le_dec y 0) as [Hy|Hy];
      [specialize (By' Hy) | specialize (By Hy)]; lra.
  - now rewrite (fixed_large x d Gx), (fixed_large y d Gy).
Qed.

Lemma fixed_compat (x y : Q) (d : nat) :
  x == y -> Js.fixed x d == Js.fixed y d.
Proof.
  intro Hxy. apply Qle_antisym; apply fixed_mono; lra.
Qed.

(** A number that already has [d] decimals is left unchanged. *)
Lemma fixed_decimal (n : Z) (d : nat) :
  Qabs (inject_Z n / Js.pow10 d) < Js.limit ->
  Js.fixed (inject_Z n / Js.pow10 d) d == inject_Z n / Js.pow10 d.
Proof.
  intro S. apply below_limit in S. destruct S as [Lo Hi].
  pose proof (pow10_pos d) as Hs.
  destruct (Z_lt_le_dec n 0) as [Hn|Hn].
  - assert (Hneg : inject_Z n / Js.pow10 d < 0).
    { apply Qlt_shift_div_r; [assumption|]. rewrite Qmult_0_l.
      change 0 with (inject_Z 0). now rewrite <- Zlt_Qlt. }
    rewrite (fixed_neg_eq _ _ Hneg Lo).
    assert (E : - (inject_Z n / Js.pow10 d) == inject_Z (- n) / Js.pow10 d).
    { rewrite inject_Z_opp. field. lra. }
    assert (E' : Js.nearest (- (inject_Z n / Js.pow10 d)) d = (- n)%Z).
    { rewrite <- (nearest_decimal (- n) d).
      apply Z.le_antisymm; apply nearest_mono; lra. }
    rewrite E', inject_Z_opp. field. lra.
  - rewrite (fixed_nonneg_eq _ _ (scaled_nonneg _ _ Hn) Hi).
    now rewrite nearest_decimal.
Qed.

Lemma fixed_integer (n : Z) (d : nat) :
  Qabs (inject_Z n) < Js.limit -> Js.fixed (inject_Z n) d == inject_Z n.
Proof.
  intro S. pose proof (pow10_pos d) as Hs.
  assert (E : inject_Z n == inject_Z (n * 10 ^ Z.of_nat d) / Js.pow10 d).
  { rewrite inject_Z_mult. fold (Js.pow10 d). field. lra. }
  rewrite (fixed_compat _ _ d E), fixed_decimal; [symmetry; exact E|].
  now rewrite <- E.
Qed.

Lemma fixed_is_decimal (x : Q) (d : nat) :
  Qabs x < Js.limit -> Js.decimal d (Js.fixed x d).
Proof.
  intro S. apply below_limit in S. destruct S as [Lo Hi].
  destruct (Qlt_le_dec x 0) as [Hx|Hx].
  - exists (- Js.nearest (- x) d)%Z. rewrite (fixed_neg_eq _ _ Hx Lo).
    rewrite inject_Z_opp. pose proof (pow10_pos d). field. lra.
  - exists (Js.nearest x d). now apply fixed_nonneg_eq.
Qed.

(** The distance between a number below the limit and its rounding, in
    units of the last digit. *)
Lemma fixed_error (x : Q) (d : nat) :
  Qabs x < Js.limit ->
  - 0.5 <= (Js.fixed x d - x) * Js.pow10 d /\
  (Js.fixed x d - x) * Js.pow10 d <= 0.5.
Proof.
  intro S. apply below_limit in S. destruct S as [Lo Hi].
  pose proof (pow10_pos d) as Hs.
  destruct (Qlt_le_dec x 0) as [Hx|Hx].
  - rewrite (fixed_neg_eq _ _ Hx Lo).
    destruct (nearest_bounds (- x) d) as [Hlo Hhi].
    assert (E : (- (inject_Z (Js.nearest (- x) d) / Js.pow10 d) - x) * Js.pow10 d
                == - inject_Z (Js.nearest (- x) d) - x * Js.pow10 d)
      by (field; lra).
    rewrite E. split; lra.
  - rewrite (fixed_nonneg_eq _ _ Hx Hi).
    destruct (nearest_bounds x d) as [Hlo Hhi].
    assert (E : (inject_Z (Js.nearest x d) / Js.pow10 d - x) * Js.pow10 d
                == inject_Z (Js.nearest x d) - x * Js.pow10 d)
      by (field; lra).
    rewrite E. split; lra.
Qed.

(** Below the limit [parseFloat(x.toFixed(d))] is a rounding of [x] to [d]
    decimals. *)
Lemma fixed_rounding (x : Q) (d : nat) :
  Qabs x < Js.limit -> Js.rounding d x (Js.fixed x d).
Proof.
  intro S. split; [now apply fixed_is_decimal|].
  pose proof (pow10_pos d) as Hs.
  destruct (fixed_error x d S) as [Hlo Hhi].
  apply Qle_shift_div_l; [assumption|].
  apply Qabs_case; intros _; lra.
Qed.

(** Bounds that are integers survive the rounding. *)
Lemma fixed_between (lo hi : Z) (x : Q) (d : nat) :
  Qabs (inject_Z lo) < Js.limit -> Qabs (inject_Z hi) < Js.limit ->
  inject_Z lo <= x -> x <= inject_Z hi ->
  inject_Z lo <= Js.fixed x d /\ Js.fixed x d <= inject_Z hi.
Proof.
  intros Slo Shi Hlo Hhi. split.
  - rewrite <- (fixed_integer lo d Slo). now apply fixed_mono.
  - rewrite <- (fixed_integer hi d Shi). now apply fixed_mono.
Qed.

(** ** Evaluation at concrete inputs *)

Lemma presets_in_range : Forall (fun s => in_range (params s)) presetScenarios.
Proof. repeat constructor; in_range_tac. Qed.

Lemma defaults_in_range : in_range defaults.
Proof. in_range_tac. Qed.

Lemma climate_crisis_preset :
  option_map params (preset "Climate Crisis") = Some climateCrisis.
Proof. reflexivity. Qed.

(** ** The classifiers *)

Lemma stress_level_eq (p : StressParameters) :
  stress_level (calculateStressOutcomes p) = stressLevelOf (overallStressScore p).
Proof. unfold calculateStressOutcomes, stressLevelOf, stress_level. reflexivity. Qed.

Lemma capital_adequacy_eq (p : StressParameters) :
  capital_adequacy (calculateStressOutcomes p)
  = capitalAdequacyOf (15.5 + capitalImpact p).
Proof.
  unfold calculateStressOutcomes, capitalAdequacyOf, capital_adequacy.
  reflexivity.
Qed.

Lemma stressLevelOf_spec (o : Q) : Spec.stress_level_is o (stressLevelOf o).
Proof.
  unfold stressLevelOf.
  destruct (Js.gt o 70) eqn:E70.
  { apply Spec.sl_severe. now apply gt_true. }
  apply gt_false in E70.
  destruct (Js.gt o 50) eqn:E50.
  { apply Spec.sl_high; [lra | now apply gt_true]. }
  apply gt_false in E50.
  destruct (Js.gt o 30) eqn:E30.
  { apply Spec.sl_moderate; [lra | lra | now apply gt_true]. }
  apply gt_false in E30.
  apply Spec.sl_low; lra.
Qed.

Lemma capitalAdequacyOf_spec (c : Q) :
  Spec.capital_adequacy_is c (capitalAdequacyOf c).
Proof.
  unfold capitalAdequacyOf.
  destruct (Js.ge c 11.5) eqn:E1.
  { apply Spec.ca_adequate. now apply ge_true. }
  apply ge_false in E1.
  destruct (Js.ge c 9) eqn:E2.
  { apply Spec.ca_watch; [lra | now apply ge_true]. }
  apply ge_false in E2.
  apply Spec.ca_critical; lra.
Qed.

(** C1, as stated, fails: the report of the "Climate Crisis" preset is not
    labelled "Severe". *)
Lemma climate_crisis_not_severe :
  option_map params (preset "Climate Crisis") = Some climateCrisis /\
  stress_level (calculateStressOutcomes climateCrisis) <> "Severe"%string.
Proof. split; [reflexivity | vm_compute; discriminate]. Qed.

(** C1 (amended): the preset named "Climate Crisis" is the vector
    (3.5, 500, 5, 1, 80, 2.5); its five risk scores are 100, 25, 100, 86 and
    37.5, its overall score is 69.7, which is not above 70, and its report
    is labelled "High". *)
Theorem climate_crisis_high :
  option_map params (preset "Climate Crisis") = Some climateCrisis /\
  climateCrisis = mkParams 3.5 500 5 1 80 2.5 /\
  physicalRisk climateCrisis == 100 /\
  transitionRisk climateCrisis == 25 /\
  financialRisk climateCrisis == 100 /\
  operationalRisk climateCrisis == 86 /\
  regulatoryRisk climateCrisis == 37.5 /\
  overallStressScore climateCrisis == 69.7 /\
  stress_level (calculateStressOutcomes climateCrisis) = "High"%string.
Proof. split_all; by_evaluation. Qed.

(** C2: the stress level is read off the overall score by strict
    thresholds tried in order: above 70 "Severe", else above 50 "High", else
    above 30 "Moderate", else "Low".  An overall score of exactly 70 is
    "High" and 70.01 is "Severe"; both scores are reached by in-range
    inputs. *)
Theorem stress_level_thresholds :
  (forall p : StressParameters,
     Spec.stress_level_is (overallStressScore p)
       (stress_level (calculateStressOutcomes p))) /\
  (forall o : Q, Spec.stress_level_is o (stressLevelOf o)) /\
  stressLevelOf 70.0 = "High"%string /\
  stressLevelOf 70.01 = "Severe"%string /\
  (in_range atSevereThreshold /\
   overallStressScore atSevereThreshold == 70.0 /\
   stress_level (calculateStressOutcomes atSevereThreshold) = "High"%string) /\
  (in_range pastSevereThreshold /\
   overallStressScore pastSevereThreshold == 70.01 /\
   stress_level (calculateStressOutcomes pastSevereThreshold) = "Severe"%string).
Proof.
  split; [|split].
  - intro p. rewrite stress_level_eq. apply stressLevelOf_spec.
  - exact stressLevelOf_spec.
  - split_all; try by_evaluation; in_range_tac.
Qed.

(** C5: the capital impact is minus twice the sum of the temperature impact
    and a hundredth of the transition risk; the projected capital ratio is
    15.5 plus that impact, and the adequacy label is "Adequate" from 11.5
    up, else "Watch" from 9 up, else "Critical".  A ratio of exactly 11.5 is
    "Adequate" and 11.49 is "Watch"; both ratios are reached by in-range
    inputs. *)
Theorem capital_adequacy_thresholds :
  (forall p : StressParameters,
     capitalImpact p == - (temperatureImpact p + transitionRisk p / 100) * 2 /\
     Spec.capital_adequacy_is (15.5 + capitalImpact p)
       (capital_adequacy (calculateStressOutcomes p))) /\
  (forall c : Q, Spec.capital_adequacy_is c (capitalAdequacyOf c)) /\
  capitalAdequacyOf 11.5 = "Adequate"%string /\
  capitalAdequacyOf 11.49 = "Watch"%string /\
  (in_range atAdequateThreshold /\
   15.5 + capitalImpact atAdequateThreshold == 11.5 /\
   capital_adequacy (calculateStressOutcomes atAdequateThreshold)
   = "Adequate"%string) /\
  (in_range underAdequateThreshold /\
   15.5 + capitalImpact underAdequateThreshold == 11.49 /\
   capital_adequacy (calculateStressOutcomes underAdequateThreshold)
   = "Watch"%string).
Proof.
  split; [|split].
  - intro p. split.
    + unfold capitalImpact. ring.
    + rewrite capital_adequacy_eq. apply capitalAdequacyOf_spec.
  - exact capitalAdequacyOf_spec.
  - split_all; try by_evaluation; in_range_tac.
Qed.

(** C9: whatever the parameters, the baseline of the report is the fixed
    record (2.5, 6.5, 15000, 20, 15.5, 135); two inputs have the same
    baseline. *)
Theorem baseline_constant :
  (forall p : StressParameters,
     baseline (calculateStressOutcomes p) = mkMetrics 2.5 6.5 15000 20 15.5 135) /\
  (forall p q : StressParameters,
     baseline (calculateStressOutcomes p) = baseline (calculateStressOutcomes q)).
Proof. split; reflexivity. Qed.

(** C10: both labels are computed from the unrounded quantities.  The
    in-range input [nearSevere] has overall score 70.02: its report shows
    [risk_scores.overall = 70] and is labelled "Severe", where the shown
    value alone would classify as "High".  Likewise [nearAdequate] has
    capital ratio 11.496: its report shows 11.5 and is labelled "Watch",
    where the shown value alone would classify as "Adequate". *)
Theorem labels_use_unrounded_values :
  (forall p : StressParameters,
     stress_level (calculateStressOutcomes p)
     = stressLevelOf (overallStressScore p) /\
     capital_adequacy (calculateStressOutcomes p)
     = capitalAdequacyOf (15.5 + capitalImpact p)) /\
  (in_range nearSevere /\
   overallStressScore nearSevere == 70.02 /\
   overall (risk_scores (calculateStressOutcomes nearSevere)) == 70.0 /\
   stress_level (calculateStressOutcomes nearSevere) = "Severe"%string /\
   stressLevelOf (overall (risk_scores (calculateStressOutcomes nearSevere)))
   = "High"%string) /\
  (in_range nearAdequate /\
   15.5 + capitalImpact nearAdequate == 11.496 /\
   capital_ratio (projected (calculateStressOutcomes nearAdequate)) == 11.5 /\
   capital_adequacy (calculateStressOutcomes nearAdequate) = "Watch"%string /\
   capitalAdequacyOf
     (capital_ratio (projected (calculateStressOutcomes nearAdequate)))
   = "Adequate"%string).
Proof.
  split.
  - intro p. split; [apply stress_level_eq | apply capital_adequacy_eq].
  - split_all; try by_evaluation; in_range_tac.
Qed.

(** ** Rounding policy of the report *)

(** C3, as stated, fails: for the "Business as Usual" preset the physical
    score is 80.875 and the report carries 80.9, which is not a rounding of
    the score to two decimals. *)
Lemma risk_scores_not_two_decimals :
  in_range businessAsUsual /\
  physicalRisk businessAsUsual == 80.875 /\
  physical (risk_scores (calculateStressOutcomes businessAsUsual)) == 80.9 /\
  ~ Js.rounding Spec.score_decimals
      (physicalRisk businessAsUsual)
      (physical (risk_scores (calculateStressOutcomes businessAsUsual))).
Proof.
  split; [in_range_tac|].
  split; [by_evaluation|].
  split; [by_evaluation|].
  intros [_ H]. vm_compute in H. apply H. reflexivity.
Qed.

(** ** Source formulas against the formulas of the specification *)

(** In exact arithmetic the source's expressions and the closed forms of
    the specification are the same rational functions of the parameters. *)
Lemma exact_formulas_match (p : StressParameters) :
  temperatureImpact p == Spec.temperature_impact p /\
  carbonPriceImpact p == Spec.carbon_price_impact p /\
  greenInvestmentBenefit p == Spec.green_investment_benefit p /\
  fossilPhaseOutCost p == Spec.fossil_phase_out_cost p /\
  waterStressImpact p == Spec.water_stress_impact p /\
  disasterImpact p == Spec.disaster_impact p /\
  projectedNPA p == Spec.projected_npa p /\
  projectedGDP p == Spec.projected_gdp p /\
  projectedExpectedLoss p == Spec.projected_expected_loss p.
Proof.
  split; [unfold temperatureImpact, Spec.temperature_impact; ring|].
  split; [unfold carbonPriceImpact, Spec.carbon_price_impact; ring|].
  split; [unfold greenInvestmentBenefit, Spec.green_investment_benefit; ring|].
  split; [unfold fossilPhaseOutCost, Spec.fossil_phase_out_cost; ring|].
  split; [unfold waterStressImpact, Spec.water_stress_impact; ring|].
  split; [unfold disasterImpact, Spec.disaster_impact; ring|].
  split; [|split].
  - unfold projectedNPA, Spec.projected_npa. apply Q.max_compat; [reflexivity|].
    unfold baseNPA, Spec.baseline_npa, temperatureImpact, waterStressImpact,
      disasterImpact, greenInvestmentBenefit, Spec.temperature_impact,
      Spec.water_stress_impact, Spec.disaster_impact,
      Spec.green_investment_benefit.
    ring.
  - unfold projectedGDP, Spec.projected_gdp. apply Q.max_compat; [reflexivity|].
    unfold baseGDP, Spec.baseline_gdp, temperatureImpact, fossilPhaseOutCost,
      disasterImpact, greenInvestmentBenefit, Spec.temperature_impact,
      Spec.fossil_phase_out_cost, Spec.disaster_impact,
      Spec.green_investment_benefit.
    ring.
  - unfold projectedExpectedLoss, Spec.projected_expected_loss,
      baseExpectedLoss, Spec.baseline_expected_loss, temperatureImpact,
      disasterImpact, Spec.temperature_impact, Spec.disaster_impact.
    ring.
Qed.

(** The binary64 product does not depend on the order of its factors. *)
Lemma float_mul_comm (x y : float) : (x * y = y * x)%float.
Proof.
  apply Prim2SF_inj. rewrite !mul_spec.
  destruct (Prim2SF x) as [sx|sx| |sx mx ex], (Prim2SF y) as [sy|sy| |sy my ey];
    simpl; try reflexivity; try (now rewrite xorb_comm).
  unfold SF64mul, SFmul. now rewrite xorb_comm, Pos.mul_comm, Z.add_comm.
Qed.

(** C4: on doubles, for every parameter vector, the six impact terms
    computed by the source are bit for bit the closed forms of the
    specification, and so are the projected NPA ratio, GDP growth and
    expected loss, in whose formulas the specification writes the constant
    factors first; hence the digits the report prints for the three
    projections are those of the specification's formulas, evaluated on
    doubles and printed with two, two and no decimals. *)
Theorem impacts_and_projections_match (b : Binary64.StressParameters) :
  Binary64.temperatureImpact b = Binary64.Spec.temperature_impact b /\
  Binary64.carbonPriceImpact b = Binary64.Spec.carbon_price_impact b /\
  Binary64.greenInvestmentBenefit b = Binary64.Spec.green_investment_benefit b /\
  Binary64.fossilPhaseOutCost b = Binary64.Spec.fossil_phase_out_cost b /\
  Binary64.waterStressImpact b = Binary64.Spec.water_stress_impact b /\
  Binary64.disasterImpact b = Binary64.Spec.disaster_impact b /\
  Binary64.projectedNPA b = Binary64.Spec.projected_npa b /\
  Binary64.projectedGDP b = Binary64.Spec.projected_gdp b /\
  Binary64.projectedExpectedLoss b = Binary64.Spec.projected_expected_loss b /\
  Binary64.npa_ratio_shown b
  = option_map (fun x => Js.toFixed x 2)
               (Binary64.exact (Binary64.Spec.projected_npa b)) /\
  Binary64.gdp_growth_shown b
  = option_map (fun x => Js.toFixed x 2)
               (Binary64.exact (Binary64.Spec.projected_gdp b)) /\
  Binary64.expected_loss_shown b
  = option_map (fun x => Js.toFixed x 0)
               (Binary64.exact (Binary64.Spec.projected_expected_loss b)).
Proof.
  assert (Hgdp : Binary64.projectedGDP b = Binary64.Spec.projected_gdp b).
  { unfold Binary64.projectedGDP, Binary64.Spec.projected_gdp.
    f_equal. repeat (first [apply float_mul_comm | reflexivity | f_equal]). }
  assert (Hloss : Binary64.projectedExpectedLoss b
                  = Binary64.Spec.projected_expected_loss b).
  { unfold Binary64.projectedExpectedLoss,
      Binary64.Spec.projected_expected_loss.
    f_equal. repeat (first [apply float_mul_comm | reflexivity | f_equal]). }
  split; [reflexivity|].
  split; [reflexivity|].
  split; [reflexivity|].
  split; [reflexivity|].
  split; [reflexivity|].
  split; [reflexivity|].
  split; [reflexivity|].
  split; [exact Hgdp|].
  split; [exact Hloss|].
  split; [reflexivity|].
  split.
  - unfold Binary64.gdp_growth_shown. now rewrite Hgdp.
  - unfold Binary64.expected_loss_shown. now rewrite Hloss.
Qed.

(** Where the sum of the terms is a decimal tie the double lies just under
    it: at the preset "Business as Usual" the projected NPA ratio is printed
    as 4.33, and with the temperature rise at 4.0 and the other sliders at
    their defaults as 7.92, while the sums of the decimal terms, 4.335 and
    7.925, round to 4.34 and 7.93. *)
Lemma projected_npa_below_tie :
  Binary64.npa_ratio_shown Binary64.businessAsUsual
  = Some (Js.Digits false 433 2) /\
  Binary64.npa_ratio_shown Binary64.hotDefaults
  = Some (Js.Digits false 792 2) /\
  Spec.projected_npa businessAsUsual == 4.335 /\
  Spec.projected_npa hotDefaults == 7.925 /\
  Js.fixed 4.335 2 == 4.34 /\
  Js.fixed 7.925 2 == 7.93.
Proof.
  split_all; by_evaluation.
Qed.

(** [RiskGauge] multiplies doubles: a score of 100 gives the arc length
    220.00000000000003, just over the 220 of the full circle, and a score
    of 57.5 the percentage 57.499999999999993, just under the score. *)
Lemma gauge_arithmetic_inexact :
  Binary64.RiskGauge.strokeDasharray 100 Binary64.RiskGauge.defaultMaxValue
  = (0x1.b800000000001p+7, 220)%float /\
  Binary64.RiskGauge.percentage 57.5 Binary64.RiskGauge.defaultMaxValue
  = 0x1.cbfffffffffffp+5%float /\
  (220 <? fst (Binary64.RiskGauge.strokeDasharray
                 100 Binary64.RiskGauge.defaultMaxValue))%float = true /\
  (Binary64.RiskGauge.percentage 57.5 Binary64.RiskGauge.defaultMaxValue
   <? 57.5)%float = true.
Proof.
  split_all; by_evaluation.
Qed.

(** ** Bounds on the valid domain *)

Lemma impact_bounds (p : StressParameters) :
  in_range p ->
  (0 <= temperatureImpact p /\ temperatureImpact p <= 5) /\
  (-0.15 <= carbonPriceImpact p /\ carbonPriceImpact p <= 1.2) /\
  (0 <= greenInvestmentBenefit p /\ greenInvestmentBenefit p <= 1) /\
  (0 <= fossilPhaseOutCost p /\ fossilPhaseOutCost p <= 2.25) /\
  (0 <= waterStressImpact p /\ waterStressImpact p <= 0.5) /\
  (0 <= disasterImpact p /\ disasterImpact p <= 2.4).
Proof.
  unfold in_range, within. simpl.
  intros [[? ?] [[? ?] [[? ?] [[? ?] [[? ?] [? ?]]]]]].
  unfold temperatureImpact, carbonPriceImpact, greenInvestmentBenefit,
    fossilPhaseOutCost, waterStressImpact, disasterImpact.
  literal_division.
  assert (Hu : -0.5 <= temperature_rise p - 1.5 <= 2.5) by (split; lra).
  set (u := temperature_rise p - 1.5) in *.
  split_all; try lra; simpl; nra.
Qed.

(** In range the NPA projection stays clear of its floor at 0. *)
Lemma projectedNPA_lower (p : StressParameters) :
  in_range p -> 1.5 <= projectedNPA p.
Proof.
  intro H. destruct (impact_bounds p H) as [[? ?] [_ [[? ?] [_ [[? ?] [? ?]]]]]].
  unfold projectedNPA, baseNPA.
  apply Qle_trans with (2 := Q.le_max_r 0 _). lra.
Qed.

Lemma raw_score_bounds (p : StressParameters) :
  in_range p ->
  (0 <= physicalRisk p /\ physicalRisk p <= 100) /\
  (0 <= transitionRisk p /\ transitionRisk p <= 100) /\
  (0 <= financialRisk p /\ financialRisk p <= 100) /\
  (0 <= operationalRisk p /\ operationalRisk p <= 100) /\
  (0 <= regulatoryRisk p /\ regulatoryRisk p <= 100) /\
  (0 <= overallStressScore p /\ overallStressScore p <= 100).
Proof.
  intro H. pose proof (projectedNPA_lower p H) as Hnpa.
  destruct (impact_bounds p H)
    as [[? ?] [[? ?] [[? ?] [[? ?] [[? ?] [? ?]]]]]].
  assert (Hc : 500 <= carbon_price p)
    by (destruct H as [_ [[Hc _] _]]; exact Hc).
  assert (Hp : 0 <= physicalRisk p /\ physicalRisk p <= 100).
  { unfold physicalRisk. split; [apply Q.min_glb; lra | apply Q.le_min_l]. }
  assert (Ht : 0 <= transitionRisk p /\ transitionRisk p <= 100).
  { unfold transitionRisk. split; [apply Q.min_glb; lra | apply Q.le_min_l]. }
  assert (Hf : 0 <= financialRisk p /\ financialRisk p <= 100).
  { unfold financialRisk, baseNPA. literal_division.
    split; [apply Q.min_glb; lra | apply Q.le_min_l]. }
  assert (Ho : 0 <= operationalRisk p /\ operationalRisk p <= 100).
  { unfold operationalRisk. split; [apply Q.min_glb; lra | apply Q.le_min_l]. }
  assert (Hr : 0 <= regulatoryRisk p /\ regulatoryRisk p <= 100).
  { unfold regulatoryRisk. literal_division.
    split; [apply Q.min_glb; lra | apply Q.le_min_l]. }
  split_all; try tauto; unfold overallStressScore; literal_division; lra.
Qed.

(** C6: in range, the five risk scores and the overall score lie between 0
    and 100, and the projected NPA ratio and GDP growth are not negative;
    this holds of the computed quantities and of the rounded fields of the
    report. *)
Theorem scores_and_projections_bounded (p : StressParameters) :
  in_range p ->
  let r := calculateStressOutcomes p in
  ((0 <= physicalRisk p /\ physicalRisk p <= 100) /\
   (0 <= transitionRisk p /\ transitionRisk p <= 100) /\
   (0 <= financialRisk p /\ financialRisk p <= 100) /\
   (0 <= operationalRisk p /\ operationalRisk p <= 100) /\
   (0 <= regulatoryRisk p /\ regulatoryRisk p <= 100) /\
   (0 <= overallStressScore p /\ overallStressScore p <= 100)) /\
  (0 <= projectedNPA p /\ 0 <= projectedGDP p) /\
  ((0 <= physical (risk_scores r) /\ physical (risk_scores r) <= 100) /\
   (0 <= transition (risk_scores r) /\ transition (risk_scores r) <= 100) /\
   (0 <= financial (risk_scores r) /\ financial (risk_scores r) <= 100) /\
   (0 <= operational (risk_scores r) /\ operational (risk_scores r) <= 100) /\
   (0 <= regulatory (risk_scores r) /\ regulatory (risk_scores r) <= 100) /\
   (0 <= overall (risk_scores r) /\ overall (risk_scores r) <= 100)) /\
  (0 <= npa_ratio (projected r) /\ 0 <= gdp_growth (projected r)).
Proof.
  intros H r.
  pose proof (raw_score_bounds p H) as Hraw.
  assert (Hproj : 0 <= projectedNPA p /\ 0 <= projectedGDP p)
    by (split; apply Q.le_max_l).
  split; [exact Hraw|]. split; [exact Hproj|].
  destruct Hraw as [[? ?] [[? ?] [[? ?] [[? ?] [[? ?] [? ?]]]]]].
  destruct Hproj as [Hn Hg].
  assert (S0 : Qabs (inject_Z 0) < Js.limit) by reflexivity.
  assert (S100 : Qabs (inject_Z 100) < Js.limit) by reflexivity.
  split.
  - subst r. report_fields. split_all;
      solve [ apply (fixed_between 0 100); assumption ].
  - subst r. report_fields. split.
    + change 0 with (inject_Z 0) at 1. rewrite <- (fixed_integer 0 2 S0).
      now apply fixed_mono.
    + change 0 with (inject_Z 0) at 1. rewrite <- (fixed_integer 0 2 S0).
      now apply fixed_mono.
Qed.

Lemma scores_and_projections_bounded_at_extremes :
  in_range extremes /\
  physical (risk_scores (calculateStressOutcomes extremes)) <= 100 /\
  0 <= gdp_growth (projected (calculateStressOutcomes extremes)).
Proof.
  assert (H : in_range extremes) by in_range_tac.
  split; [exact H|].
  pose proof (scores_and_projections_bounded extremes H) as B.
  cbv zeta in B.
  split.
  - exact (proj2 (proj1 (proj1 (proj2 (proj2 B))))).
  - exact (proj2 (proj2 (proj2 (proj2 B)))).
Defined.

(** ** Rounding policy of the report, continued *)

(** In range, the quantities that enter the report other than the scores. *)
Lemma quantity_bounds (p : StressParameters) :
  in_range p ->
  (0 <= projectedNPA p /\ projectedNPA p <= 11) /\
  (0 <= projectedGDP p /\ projectedGDP p <= 7) /\
  (15000 <= projectedExpectedLoss p /\ projectedExpectedLoss p <= 36000) /\
  (20 <= projectedGreenFinance p /\ projectedGreenFinance p <= 45) /\
  (3 <= 15.5 + capitalImpact p /\ 15.5 + capitalImpact p <= 16) /\
  (85 <= 135 - liquidityStress p * 0.5 /\ 135 - liquidityStress p * 0.5 <= 123).
Proof.
  intro H.
  destruct (impact_bounds p H)
    as [[? ?] [[? ?] [[? ?] [[? ?] [[? ?] [? ?]]]]]].
  destruct (raw_score_bounds p H) as [_ [[? ?] _]].
  assert (Hg : 0 <= green_investment_growth p <= 50)
    by (destruct H as [_ [_ [Hg _]]]; exact Hg).
  split_all.
  - apply Q.le_max_l.
  - unfold projectedNPA, baseNPA. apply Q.max_lub; lra.
  - apply Q.le_max_l.
  - unfold projectedGDP, baseGDP. apply Q.max_lub; lra.
  - unfold projectedExpectedLoss, baseExpectedLoss. lra.
  - unfold projectedExpectedLoss, baseExpectedLoss. lra.
  - unfold projectedGreenFinance, baseGreenFinance. lra.
  - unfold projectedGreenFinance, baseGreenFinance. lra.
  - unfold capitalImpact. literal_division. lra.
  - unfold capitalImpact. literal_division. lra.
  - assert (liquidityStress p <= 100) by apply Q.le_min_l. lra.
  - assert (25 <= liquidityStress p)
      by (unfold liquidityStress; apply Q.min_glb; lra).
    lra.
Qed.

(** C3 (amended): in range, every computed field of the report is the
    rounding of the corresponding unrounded quantity, with two decimals for
    [npa_ratio], [gdp_growth], [capital_ratio], [npa_change] and
    [gdp_change]; one decimal for the five risk scores, the overall score,
    [green_finance_share] and [loss_change_pct]; and no decimals for
    [expected_loss] and [liquidity_coverage]. *)
Theorem report_rounding_policy (p : StressParameters) :
  in_range p ->
  let r := calculateStressOutcomes p in
  Js.rounding 2 (projectedNPA p) (npa_ratio (projected r)) /\
  Js.rounding 2 (projectedGDP p) (gdp_growth (projected r)) /\
  Js.rounding 0 (projectedExpectedLoss p) (expected_loss (projected r)) /\
  Js.rounding 1 (projectedGreenFinance p) (green_finance_share (projected r)) /\
  Js.rounding 2 (15.5 + capitalImpact p) (capital_ratio (projected r)) /\
  Js.rounding 0 (135 - liquidityStress p * 0.5)
    (liquidity_coverage (projected r)) /\
  Js.rounding 1 (physicalRisk p) (physical (risk_scores r)) /\
  Js.rounding 1 (transitionRisk p) (transition (risk_scores r)) /\
  Js.rounding 1 (financialRisk p) (financial (risk_scores r)) /\
  Js.rounding 1 (operationalRisk p) (operational (risk_scores r)) /\
  Js.rounding 1 (regulatoryRisk p) (regulatory (risk_scores r)) /\
  Js.rounding 1 (overallStressScore p) (overall (risk_scores r)) /\
  Js.rounding 2 (projectedNPA p - baseNPA) (npa_change (changes r)) /\
  Js.rounding 2 (projectedGDP p - baseGDP) (gdp_change (changes r)) /\
  Js.rounding 1
    ((projectedExpectedLoss p - baseExpectedLoss) / baseExpectedLoss * 100)
    (loss_change_pct (changes r)).
Proof.
  intros H r.
  destruct (raw_score_bounds p H)
    as [[? ?] [[? ?] [[? ?] [[? ?] [[? ?] [? ?]]]]]].
  destruct (quantity_bounds p H)
    as [[? ?] [[? ?] [[? ?] [[? ?] [[? ?] [? ?]]]]]].
  subst r. report_fields.
  split_all; apply fixed_rounding, million_below_limit;
    unfold baseNPA, baseGDP, baseExpectedLoss in *; literal_division; lra.
Qed.

Lemma report_rounding_policy_at_defaults :
  in_range defaults /\
  Js.rounding 1 (physicalRisk defaults)
    (physical (risk_scores (calculateStressOutcomes defaults))) /\
  Js.rounding 0 (projectedExpectedLoss defaults)
    (expected_loss (projected (calculateStressOutcomes defaults))).
Proof.
  assert (H : in_range defaults) by in_range_tac.
  split; [exact H|].
  pose proof (report_rounding_policy defaults H) as R. cbv zeta in R.
  split.
  - exact (proj1 (proj2 (proj2 (proj2 (proj2 (proj2 (proj2 R))))))).
  - exact (proj1 (proj2 (proj2 R))).
Defined.

(** ** Monotonicity in the temperature rise *)

Lemma temperatureImpact_mono (p q : StressParameters) :
  1.5 <= temperature_rise p -> temperature_rise p <= temperature_rise q ->
  temperatureImpact p <= temperatureImpact q.
Proof.
  intros H1 H2. unfold temperatureImpact. simpl. nra.
Qed.

(** C7: between two vectors that differ only in the temperature rise, both
    rises at least 1.5 and the second at least the first, neither the
    physical risk score nor the projected NPA ratio decreases; this holds of
    the computed quantities and of the fields of the report.  The ranges of
    the other fields play no part. *)
Theorem temperature_rise_monotone (p q : StressParameters) :
  same_but_temperature p q ->
  1.5 <= temperature_rise p ->
  temperature_rise p <= temperature_rise q ->
  physicalRisk p <= physicalRisk q /\
  projectedNPA p <= projectedNPA q /\
  physical (risk_scores (calculateStressOutcomes p))
  <= physical (risk_scores (calculateStressOutcomes q)) /\
  npa_ratio (projected (calculateStressOutcomes p))
  <= npa_ratio (projected (calculateStressOutcomes q)).
Proof.
  intros (Hc & Hg & Hf & Hw & Hd) H1 H2.
  pose proof (temperatureImpact_mono p q H1 H2) as Ht.
  assert (Ew : waterStressImpact p == waterStressImpact q)
    by (unfold waterStressImpact; now rewrite Hw).
  assert (Ed : disasterImpact p == disasterImpact q)
    by (unfold disasterImpact; now rewrite Hd).
  assert (Eg : greenInvestmentBenefit p == greenInvestmentBenefit q)
    by (unfold greenInvestmentBenefit; now rewrite Hg).
  assert (Hphys : physicalRisk p <= physicalRisk q).
  { unfold physicalRisk. apply Q.min_le_compat_l. lra. }
  assert (Hnpa : projectedNPA p <= projectedNPA q).
  { unfold projectedNPA. apply Q.max_le_compat_l. lra. }
  split_all; try assumption; report_fields.
  - now apply fixed_mono.
  - now apply fixed_mono.
Qed.

Lemma temperature_rise_monotone_from_defaults :
  physicalRisk defaults <= physicalRisk hotDefaults /\
  projectedNPA defaults <= projectedNPA hotDefaults /\
  physical (risk_scores (calculateStressOutcomes defaults))
  <= physical (risk_scores (calculateStressOutcomes hotDefaults)) /\
  npa_ratio (projected (calculateStressOutcomes defaults))
  <= npa_ratio (projected (calculateStressOutcomes hotDefaults)).
Proof.
  apply (temperature_rise_monotone defaults hotDefaults).
  - unfold same_but_temperature. split_all; by_evaluation.
  - unfold Qle; simpl; lia.
  - unfold Qle; simpl; lia.
Defined.

(** ** Recommendations *)

Lemma shown_In (c : bool) (item x : string) :
  In x (shown c item) <-> c = true /\ x = item.
Proof.
  destruct c; simpl; intuition congruence.
Qed.

Lemma recommendations_In (r : StressReport) (x : string) :
  In x (recommendations r) <->
  (Js.gt (physical (risk_scores r)) 50 = true /\ x = physicalAdvice) \/
  (Js.gt (transition (risk_scores r)) 50 = true /\ x = transitionAdvice) \/
  (Js.lt (capital_ratio (projected r)) 12 = true /\ x = capitalAdvice) \/
  (Js.gt (npa_change (changes r)) 1 = true /\ x = creditAdvice) \/
  x = monitoringAdvice \/ x = portfolioAdvice.
Proof.
  unfold recommendations. rewrite !in_app_iff, !shown_In. simpl.
  intuition congruence.
Qed.

(** The six texts are pairwise distinct, so an entry identifies its rule. *)
Lemma advice_distinct :
  NoDup [physicalAdvice; transitionAdvice; capitalAdvice; creditAdvice;
         monitoringAdvice; portfolioAdvice].
Proof.
  repeat constructor; simpl; intuition discriminate.
Qed.

(** C8: the two closing recommendations are always present; the
    physical-risk recommendation is present exactly when the report's
    physical score is above 50; and when two reports agree on the other
    fields the rules read while only the second has a physical score above
    50, the second list is the first with the physical-risk recommendation
    added in front, the first list not containing it. *)
Theorem recommendations_independent :
  (forall r : StressReport,
     In monitoringAdvice (recommendations r) /\
     In portfolioAdvice (recommendations r)) /\
  (forall r : StressReport,
     In physicalAdvice (recommendations r) <-> 50 < physical (risk_scores r)) /\
  (forall r1 r2 : StressReport,
     same_but_physical r1 r2 ->
     physical (risk_scores r1) <= 50 ->
     50 < physical (risk_scores r2) ->
     recommendations r2 = physicalAdvice :: recommendations r1 /\
     ~ In physicalAdvice (recommendations r1)).
Proof.
  assert (Hphys : forall r,
    In physicalAdvice (recommendations r) <-> 50 < physical (risk_scores r)).
  { intro r. rewrite recommendations_In, <- gt_true.
    split; [|tauto].
    intros [[H _]|[[_ H]|[[_ H]|[[_ H]|[H|H]]]]];
      solve [exact H | discriminate H]. }
  split; [|split].
  - intro r. rewrite !recommendations_In. tauto.
  - exact Hphys.
  - intros r1 r2 (Et & Ec & En) H1 H2. split.
    + unfold recommendations.
      apply gt_false in H1. apply gt_true in H2. rewrite H1, H2.
      unfold Js.gt, Js.lt. rewrite Et, Ec, En. reflexivity.
    + rewrite Hphys. lra.
Qed.

Lemma recommendations_independent_across_fifty :
  in_range physicalAtFifty /\ in_range physicalPastFifty /\
  recommendations (calculateStressOutcomes physicalPastFifty)
  = physicalAdvice :: recommendations (calculateStressOutcomes physicalAtFifty) /\
  ~ In physicalAdvice (recommendations (calculateStressOutcomes physicalAtFifty)).
Proof.
  split; [in_range_tac|]. split; [in_range_tac|].
  apply (proj2 (proj2 recommendations_independent)).
  - unfold same_but_physical. split_all; by_evaluation.
  - vm_compute. discriminate.
  - by_evaluation.
Defined.

(** ** The labels in binary64 arithmetic

    The evaluations on which the statements about concrete inputs rest give
    the same labels and the same printed digits when carried out on
    doubles. *)

Lemma binary64_climate_crisis :
  Binary64.stress_level Binary64.climateCrisis = "High"%string.
Proof. by_evaluation. Qed.

Lemma binary64_near_severe :
  Binary64.stress_level Binary64.nearSevere = "Severe"%string /\
  Binary64.overall_shown Binary64.nearSevere = Some (Js.Digits false 700 1).
Proof. split; by_evaluation. Qed.

Lemma binary64_near_adequate :
  Binary64.capital_adequacy Binary64.nearAdequate = "Watch"%string /\
  Binary64.capital_ratio_shown Binary64.nearAdequate
  = Some (Js.Digits false 1150 2).
Proof. split; by_evaluation. Qed.

(** * The Scenarios page *)

(** ** The state object *)

Lemma getProperty_setProperty (o : JsObject) (k k' : string) (v : Q) :
  getProperty (setProperty o k v) k'
  = if String.eqb k k' then Some v else getProperty o k'.
Proof.
  induction o as [|[k0 v0] rest IH]; simpl.
  - reflexivity.
  - destruct (String.eqb k0 k) eqn:E; simpl.
    + apply String.eqb_eq in E. subst k0.
      destruct (String.eqb k k'); reflexivity.
    + rewrite IH.
      destruct (String.eqb k0 k') eqn:E2; [|reflexivity].
      destruct (String.eqb k k') eqn:E3; [|reflexivity].
      apply String.eqb_eq in E2, E3. subst.
      rewrite String.eqb_refl in E. discriminate.
Qed.

Lemma fromObject_toObject (p : StressParameters) : fromObject (toObject p) = Some p.
Proof. destruct p. reflexivity. Qed.

Lemma fromObject_inv (o : JsObject) (p : StressParameters) :
  fromObject o = Some p ->
  getProperty o "temperature_rise" = Some (temperature_rise p) /\
  getProperty o "carbon_price" = Some (carbon_price p) /\
  getProperty o "green_investment_growth" = Some (green_investment_growth p) /\
  getProperty o "fossil_phase_out" = Some (fossil_phase_out p) /\
  getProperty o "water_stress_level" = Some (water_stress_level p) /\
  getProperty o "disaster_frequency" = Some (disaster_frequency p).
Proof.
  unfold fromObject.
  destruct (getProperty o "temperature_rise"); [|discriminate].
  destruct (getProperty o "carbon_price"); [|discriminate].
  destruct (getProperty o "green_investment_growth"); [|discriminate].
  destruct (getProperty o "fossil_phase_out"); [|discriminate].
  destruct (getProperty o "water_stress_level"); [|discriminate].
  destruct (getProperty o "disaster_frequency"); [|discriminate].
  intro H. injection H as <-. split_all; reflexivity.
Qed.

(** The keys for which the catalogue has an entry, with their entries. *)
Lemma STRESS_TEST_PARAMS_at_inv (key : string) (config : ParamConfig) :
  STRESS_TEST_PARAMS_at key = Some config ->
  In (key, config) STRESS_TEST_PARAMS_entries.
Proof.
  unfold STRESS_TEST_PARAMS_at. intro H.
  destruct (find _ _) as [[k c]|] eqn:F; [|discriminate].
  simpl in H. injection H as ->.
  apply find_some in F. destruct F as [Hin Heq].
  simpl in Heq. apply String.eqb_eq in Heq. now subst k.
Qed.

(** X2: moving one control rewrites the property it names and no other: on
    a state that has the six parameters, the parameters read back after
    [handleParamChange key value] are the old ones with the one named [key]
    replaced; a key that names none of the six leaves them all as they
    were. *)
Theorem handleParamChange_updates_one
  (key : string) (value : Q) (prev : JsObject) (p : StressParameters) :
  fromObject prev = Some p ->
  fromObject (handleParamChange key value prev) = Some (withParam p key value) /\
  (forall other : string,
     other <> key ->
     getProperty (handleParamChange key value prev) other
     = getProperty prev other).
Proof.
  intro H. split.
  - apply fromObject_inv in H.
    destruct H as (Ht & Hc & Hg & Hf & Hw & Hd).
    unfold handleParamChange, fromObject, withParam.
    rewrite !getProperty_setProperty, Ht, Hc, Hg, Hf, Hw, Hd.
    destruct (String.eqb key "temperature_rise") eqn:E1.
    { apply String.eqb_eq in E1. subst key. destruct p. reflexivity. }
    destruct (String.eqb key "carbon_price") eqn:E2.
    { apply String.eqb_eq in E2. subst key. destruct p. reflexivity. }
    destruct (String.eqb key "green_investment_growth") eqn:E3.
    { apply String.eqb_eq in E3. subst key. destruct p. reflexivity. }
    destruct (String.eqb key "fossil_phase_out") eqn:E4.
    { apply String.eqb_eq in E4. subst key. destruct p. reflexivity. }
    destruct (String.eqb key "water_stress_level") eqn:E5.
    { apply String.eqb_eq in E5. subst key. destruct p. reflexivity. }
    destruct (String.eqb key "disaster_frequency") eqn:E6.
    { apply String.eqb_eq in E6. subst key. destruct p. reflexivity. }
    destruct p. reflexivity.
  - intros other Hneq. unfold handleParamChange.
    rewrite getProperty_setProperty.
    destruct (String.eqb key other) eqn:E; [|reflexivity].
    apply String.eqb_eq in E. congruence.
Qed.

Lemma handleParamChange_updates_one_on_initial :
  fromObject (handleParamChange "carbon_price" 4200 initialStressParams)
  = Some (mkParams 1.5 4200 20 5 45 1.5).
Proof.
  apply (handleParamChange_updates_one "carbon_price" 4200 initialStressParams
           (mkParams 1.5 1000 20 5 45 1.5)).
  reflexivity.
Defined.

(** ** Reachable states *)

Lemma resetParams_initial : resetParams = initialStressParams.
Proof. reflexivity. Qed.

Lemma initial_in_range :
  exists p, fromObject initialStressParams = Some p /\ in_range p.
Proof.
  exists (mkParams 1.5 1000 20 5 45 1.5). split; [reflexivity | in_range_tac].
Qed.

Lemma withParam_in_range
  (key : string) (config : ParamConfig) (value : Q) (p : StressParameters) :
  In (key, config) STRESS_TEST_PARAMS_entries ->
  within config value -> in_range p -> in_range (withParam p key value).
Proof.
  intros Hin Hw (Rt & Rc & Rg & Rf & Rw & Rd).
  simpl in Hin.
  destruct Hin as [H|[H|[H|[H|[H|[H|[]]]]]]]; injection H as <- <-.
  - change (in_range (mkParams value (carbon_price p)
      (green_investment_growth p) (fossil_phase_out p) (water_stress_level p)
      (disaster_frequency p))).
    unfold in_range; cbn [temperature_rise carbon_price green_investment_growth
      fossil_phase_out water_stress_level disaster_frequency]. tauto.
  - change (in_range (mkParams (temperature_rise p) value
      (green_investment_growth p) (fossil_phase_out p) (water_stress_level p)
      (disaster_frequency p))).
    unfold in_range; cbn [temperature_rise carbon_price green_investment_growth
      fossil_phase_out water_stress_level disaster_frequency]. tauto.
  - change (in_range (mkParams (temperature_rise p) (carbon_price p) value
      (fossil_phase_out p) (water_stress_level p) (disaster_frequency p))).
    unfold in_range; cbn [temperature_rise carbon_price green_investment_growth
      fossil_phase_out water_stress_level disaster_frequency]. tauto.
  - change (in_range (mkParams (temperature_rise p) (carbon_price p)
      (green_investment_growth p) value (water_stress_level p)
      (disaster_frequency p))).
    unfold in_range; cbn [temperature_rise carbon_price green_investment_growth
      fossil_phase_out water_stress_level disaster_frequency]. tauto.
  - change (in_range (mkParams (temperature_rise p) (carbon_price p)
      (green_investment_growth p) (fossil_phase_out p) value
      (disaster_frequency p))).
    unfold in_range; cbn [temperature_rise carbon_price green_investment_growth
      fossil_phase_out water_stress_level disaster_frequency]. tauto.
  - change (in_range (mkParams (temperature_rise p) (carbon_price p)
      (green_investment_growth p) (fossil_phase_out p) (water_stress_level p)
      value)).
    unfold in_range; cbn [temperature_rise carbon_price green_investment_growth
      fossil_phase_out water_stress_level disaster_frequency]. tauto.
Qed.

(** One produced event keeps the six parameters defined and in range. *)
Lemma handle_in_range (o : JsObject) (e : Event) :
  (exists p, fromObject o = Some p /\ in_range p) ->
  produced e ->
  exists p, fromObject (handle o e) = Some p /\ in_range p.
Proof.
  intros (p & Hp & Hr) He. destruct e as [key value|preset|]; simpl in *.
  - destruct He as (config & Hat & Hw).
    exists (withParam p key value).
    split; [apply (handleParamChange_updates_one key value o p Hp)|].
    apply STRESS_TEST_PARAMS_at_inv in Hat.
    now apply (withParam_in_range key config).
  - exists (params preset). split; [apply fromObject_toObject|].
    pose proof presets_in_range as HF.
    rewrite Forall_forall in HF. now apply HF.
  - rewrite resetParams_initial. apply initial_in_range.
Qed.

Lemma stateAfter_in_range (events : list Event) :
  Forall produced events ->
  exists p, fromObject (stateAfter events) = Some p /\ in_range p.
Proof.
  intro HF. unfold stateAfter. generalize initial_in_range.
  generalize initialStressParams as o.
  induction HF as [|e es He _ IH]; intros o Ho; simpl.
  - exact Ho.
  - apply IH. now apply handle_in_range.
Qed.

(** X1: whatever sequence of slider moves, preset clicks and resets the
    page produces, the state object keeps all six parameters defined and
    every one of them inside the range declared for it in the catalogue,
    so the report is always computed, and on an in-range vector. *)
Theorem stress_params_stay_in_range (events : list Event) :
  Forall produced events ->
  exists p : StressParameters,
    fromObject (stateAfter events) = Some p /\ in_range p /\
    stressOutcomes (stateAfter events) = Some (calculateStressOutcomes p).
Proof.
  intro HF.
  destruct (stateAfter_in_range events HF) as (p & Hp & Hr).
  exists p. split_all; try assumption.
  unfold stressOutcomes. now rewrite Hp.
Qed.

Lemma sampleSession_produced : Forall produced sampleSession.
Proof.
  unfold sampleSession. repeat apply Forall_cons; try apply Forall_nil.
  - simpl. do 3 right. left. reflexivity.
  - exists STRESS_TEST_PARAMS.carbon_price.
    split; [reflexivity | split; unfold Qle; simpl; lia].
  - exists STRESS_TEST_PARAMS.temperature_rise.
    split; [reflexivity | split; unfold Qle; simpl; lia].
  - exact I.
  - exists STRESS_TEST_PARAMS.water_stress_level.
    split; [reflexivity | split; unfold Qle; simpl; lia].
Defined.

Lemma stress_params_stay_in_range_sample :
  exists p : StressParameters,
    fromObject (stateAfter sampleSession) = Some p /\ in_range p /\
    stressOutcomes (stateAfter sampleSession) = Some (calculateStressOutcomes p).
Proof.
  exact (stress_params_stay_in_range sampleSession sampleSession_produced).
Defined.

(** * Further properties of the engine *)

(** ** Clamps that never take effect *)

Lemma inactive_clamps_unclamped_npa (p : StressParameters) :
  in_range p ->
  projectedNPA p
  == baseNPA + temperatureImpact p + waterStressImpact p + disasterImpact p
     - greenInvestmentBenefit p /\
  liquidityStress p == disasterImpact p * 20 + waterStressImpact p * 15 + 25.
Proof.
  intro H.
  destruct (impact_bounds p H)
    as [[? ?] [[? ?] [[? ?] [[? ?] [[? ?] [? ?]]]]]].
  split.
  - unfold projectedNPA, baseNPA. apply Q.max_r. lra.
  - unfold liquidityStress. apply Q.min_r. lra.
Qed.

(** X3: inside the declared ranges the floor at 0 of the projected NPA
    ratio and of the projected GDP growth, and the cap at 100 of the
    transition risk and of the liquidity stress, are never reached: the
    four quantities are given by their unclamped expressions.  The caps of
    the other scores are reached: at the upper end of the ranges the
    physical score is cut from 227.5 to 100. *)
Theorem inactive_clamps (p : StressParameters) :
  in_range p ->
  projectedNPA p
  == baseNPA + temperatureImpact p + waterStressImpact p + disasterImpact p
     - greenInvestmentBenefit p /\
  projectedGDP p
  == baseGDP - temperatureImpact p * 0.5 - fossilPhaseOutCost p * 0.3
     - disasterImpact p * 0.4 + greenInvestmentBenefit p * 0.2 /\
  transitionRisk p == (carbonPriceImpact p + fossilPhaseOutCost p) * 20 + 25 /\
  liquidityStress p == disasterImpact p * 20 + waterStressImpact p * 15 + 25 /\
  (in_range extremes /\
   (temperatureImpact extremes + waterStressImpact extremes
    + disasterImpact extremes) * 25 + 30 == 227.5 /\
   physicalRisk extremes == 100).
Proof.
  intro H.
  destruct (impact_bounds p H)
    as [[? ?] [[? ?] [[? ?] [[? ?] [[? ?] [? ?]]]]]].
  split; [|split; [|split; [|split]]].
  - unfold projectedNPA, baseNPA. apply Q.max_r. lra.
  - unfold projectedGDP, baseGDP. apply Q.max_r. lra.
  - unfold transitionRisk. apply Q.min_r. lra.
  - unfold liquidityStress. apply Q.min_r. lra.
  - split; [in_range_tac | split; by_evaluation].
Qed.

Lemma inactive_clamps_at_defaults :
  projectedNPA defaults
  == baseNPA + temperatureImpact defaults + waterStressImpact defaults
     + disasterImpact defaults - greenInvestmentBenefit defaults.
Proof.
  exact (proj1 (inactive_clamps defaults defaults_in_range)).
Defined.

(** ** Direction of the projected figures *)

Lemma fixed_le_decimal (n : Z) (d : nat) (x : Q) :
  Qabs (inject_Z n / Js.pow10 d) < Js.limit ->
  x <= inject_Z n / Js.pow10 d -> Js.fixed x d <= inject_Z n / Js.pow10 d.
Proof.
  intros S H. rewrite <- (fixed_decimal n d S). now apply fixed_mono.
Qed.

Lemma fixed_ge_decimal (n : Z) (d : nat) (x : Q) :
  Qabs (inject_Z n / Js.pow10 d) < Js.limit ->
  inject_Z n / Js.pow10 d <= x -> inject_Z n / Js.pow10 d <= Js.fixed x d.
Proof.
  intros S H. rewrite <- (fixed_decimal n d S) at 1. now apply fixed_mono.
Qed.

Lemma fixed_ge_integer (n : Z) (d : nat) (x : Q) :
  Qabs (inject_Z n) < Js.limit -> inject_Z n <= x -> inject_Z n <= Js.fixed x d.
Proof.
  intros S H. rewrite <- (fixed_integer n d S) at 1. now apply fixed_mono.
Qed.

Lemma fixed_le_integer (n : Z) (d : nat) (x : Q) :
  Qabs (inject_Z n) < Js.limit -> x <= inject_Z n -> Js.fixed x d <= inject_Z n.
Proof.
  intros S H. rewrite <- (fixed_integer n d S). now apply fixed_mono.
Qed.

(** X4: inside the declared ranges the stress never improves a projected
    figure: in the report the expected loss is at least its baseline and
    the loss change is not negative, the capital ratio is at most its
    baseline, the liquidity coverage lies between 95 and 123 and so
    strictly below its baseline of 135, and the green finance share is at
    least its baseline. *)
Theorem projections_never_improve (p : StressParameters) :
  in_range p ->
  let r := calculateStressOutcomes p in
  expected_loss (baseline r) <= expected_loss (projected r) /\
  0 <= loss_change_pct (changes r) /\
  capital_ratio (projected r) <= capital_ratio (baseline r) /\
  (95 <= liquidity_coverage (projected r) /\
   liquidity_coverage (projected r) <= 123 /\
   liquidity_coverage (projected r) < liquidity_coverage (baseline r)) /\
  green_finance_share (baseline r) <= green_finance_share (projected r).
Proof.
  intros H r. subst r. report_fields.
  destruct (impact_bounds p H)
    as [[? ?] [[? ?] [[? ?] [[? ?] [[? ?] [? ?]]]]]].
  destruct (raw_score_bounds p H) as [_ [[? ?] _]].
  assert (Hliq : liquidityStress p
                 == disasterImpact p * 20 + waterStressImpact p * 15 + 25)
    by (unfold liquidityStress; apply Q.min_r; lra).
  assert (Hg : 0 <= green_investment_growth p)
    by (destruct H as [_ [_ [[Hg _] _]]]; exact Hg).
  assert (Hlo : 94.75 <= 135 - liquidityStress p * 0.5) by lra.
  assert (Hhi : 135 - liquidityStress p * 0.5 <= 122.5) by lra.
  assert (L123 : Js.fixed (135 - liquidityStress p * 0.5) 0 <= 123).
  { apply (fixed_le_integer 123 0); [reflexivity|].
    change (inject_Z 123) with 123. lra. }
  split_all.
  - apply (fixed_ge_integer 15000 0); [reflexivity|].
    unfold projectedExpectedLoss, baseExpectedLoss.
    change (inject_Z 15000) with 15000. lra.
  - apply (fixed_ge_integer 0 1); [reflexivity|].
    unfold projectedExpectedLoss, baseExpectedLoss.
    change (inject_Z 0) with 0. literal_division. lra.
  - apply Qle_trans with (inject_Z 1550 / Js.pow10 2);
      [|vm_compute; discriminate].
    apply fixed_le_decimal; [reflexivity|].
    change (inject_Z 1550 / Js.pow10 2) with (1550 # 100).
    unfold capitalImpact. literal_division. lra.
  - apply Qle_trans with (Js.fixed 94.75 0); [vm_compute; discriminate|].
    now apply fixed_mono.
  - exact L123.
  - apply Qle_lt_trans with 123; [exact L123 | reflexivity].
  - apply (fixed_ge_integer 20 1); [reflexivity|].
    unfold projectedGreenFinance, baseGreenFinance.
    change (inject_Z 20) with 20. lra.
Qed.

Lemma projections_never_improve_at_defaults :
  0 <= loss_change_pct (changes (calculateStressOutcomes defaults)).
Proof.
  exact (proj1 (proj2 (projections_never_improve defaults defaults_in_range))).
Defined.

(** ** Monotonicity in every driver *)

Lemma impacts_ordered (p q : StressParameters) :
  at_least_as_stressed p q ->
  temperatureImpact p <= temperatureImpact q /\
  carbonPriceImpact p <= carbonPriceImpact q /\
  greenInvestmentBenefit q <= greenInvestmentBenefit p /\
  fossilPhaseOutCost p <= fossilPhaseOutCost q /\
  waterStressImpact p <= waterStressImpact q /\
  disasterImpact p <= disasterImpact q.
Proof.
  intros (Ht & Ht' & Hc & Hg & Hf & Hw & Hd).
  split; [now apply temperatureImpact_mono|].
  unfold carbonPriceImpact, greenInvestmentBenefit, fossilPhaseOutCost,
    waterStressImpact, disasterImpact.
  literal_division. split_all; lra.
Qed.

Lemma raw_scores_ordered (p q : StressParameters) :
  at_least_as_stressed p q ->
  physicalRisk p <= physicalRisk q /\
  transitionRisk p <= transitionRisk q /\
  financialRisk p <= financialRisk q /\
  operationalRisk p <= operationalRisk q /\
  regulatoryRisk p <= regulatoryRisk q /\
  overallStressScore p <= overallStressScore q.
Proof.
  intro H. destruct (impacts_ordered p q H) as (Ht & Hc & Hg & Hf & Hw & Hd).
  destruct H as (_ & _ & Hcp & _).
  assert (Hnpa : projectedNPA p <= projectedNPA q).
  { unfold projectedNPA. apply Q.max_le_compat_l. lra. }
  assert (H1 : physicalRisk p <= physicalRisk q).
  { unfold physicalRisk. apply Q.min_le_compat_l. lra. }
  assert (H2 : transitionRisk p <= transitionRisk q).
  { unfold transitionRisk. apply Q.min_le_compat_l. lra. }
  assert (H3 : financialRisk p <= financialRisk q).
  { unfold financialRisk, baseNPA. apply Q.min_le_compat_l.
    literal_division. lra. }
  assert (H4 : operationalRisk p <= operationalRisk q).
  { unfold operationalRisk. apply Q.min_le_compat_l. lra. }
  assert (H5 : regulatoryRisk p <= regulatoryRisk q).
  { unfold regulatoryRisk. apply Q.min_le_compat_l. literal_division. lra. }
  split_all; try assumption.
  unfold overallStressScore. literal_division. lra.
Qed.

(** X5: a vector that is at least as stressed in every driver (no lower
    carbon price, phase-out rate, water stress, disaster frequency and
    temperature rise from 1.5 up, no higher green investment growth) has
    no lower risk score in any of the five dimensions and no lower overall
    score, in the computed quantities and in the report; a report
    labelled "Severe" stays "Severe" and a report labelled "Low" can only
    come from a vector whose less stressed neighbours are "Low" too. *)
Theorem scores_monotone_in_stress (p q : StressParameters) :
  at_least_as_stressed p q ->
  let rp := calculateStressOutcomes p in
  let rq := calculateStressOutcomes q in
  (physicalRisk p <= physicalRisk q /\
   transitionRisk p <= transitionRisk q /\
   financialRisk p <= financialRisk q /\
   operationalRisk p <= operationalRisk q /\
   regulatoryRisk p <= regulatoryRisk q /\
   overallStressScore p <= overallStressScore q) /\
  (physical (risk_scores rp) <= physical (risk_scores rq) /\
   transition (risk_scores rp) <= transition (risk_scores rq) /\
   financial (risk_scores rp) <= financial (risk_scores rq) /\
   operational (risk_scores rp) <= operational (risk_scores rq) /\
   regulatory (risk_scores rp) <= regulatory (risk_scores rq) /\
   overall (risk_scores rp) <= overall (risk_scores rq)) /\
  (stress_level rp = "Severe"%string -> stress_level rq = "Severe"%string) /\
  (stress_level rq = "Low"%string -> stress_level rp = "Low"%string).
Proof.
  intros H rp rq. pose proof (raw_scores_ordered p q H) as Hraw.
  split; [exact Hraw|].
  destruct Hraw as (H1 & H2 & H3 & H4 & H5 & H6).
  subst rp rq. split; [|split].
  - report_fields. split_all; now apply fixed_mono.
  - rewrite !stress_level_eq. unfold stressLevelOf.
    destruct (Js.gt (overallStressScore p) 70) eqn:E70;
      [| destruct (Js.gt (overallStressScore p) 50);
         [| destruct (Js.gt (overallStressScore p) 30)]; discriminate ].
    intros _. apply gt_true in E70.
    assert (E : Js.gt (overallStressScore q) 70 = true) by (apply gt_true; lra).
    now rewrite E.
  - rewrite !stress_level_eq. unfold stressLevelOf.
    destruct (Js.gt (overallStressScore q) 70) eqn:E70; [discriminate|].
    destruct (Js.gt (overallStressScore q) 50) eqn:E50; [discriminate|].
    destruct (Js.gt (overallStressScore q) 30) eqn:E30; [discriminate|].
    intros _. apply gt_false in E70, E50, E30.
    assert (F70 : Js.gt (overallStressScore p) 70 = false)
      by (apply gt_false; lra).
    assert (F50 : Js.gt (overallStressScore p) 50 = false)
      by (apply gt_false; lra).
    assert (F30 : Js.gt (overallStressScore p) 30 = false)
      by (apply gt_false; lra).
    now rewrite F70, F50, F30.
Qed.

Lemma defaults_to_extremes : at_least_as_stressed defaults extremes.
Proof. unfold at_least_as_stressed. simpl. split_all; unfold Qle; simpl; lia. Defined.

Lemma scores_monotone_in_stress_from_defaults :
  overallStressScore defaults <= overallStressScore extremes.
Proof.
  pose proof (scores_monotone_in_stress defaults extremes defaults_to_extremes)
    as M.
  cbv zeta in M.
  exact (proj2 (proj2 (proj2 (proj2 (proj2 (proj1 M)))))).
Defined.

(** ** The range of the overall score *)

(** X6: inside the declared ranges the overall score lies between 25.9 and
    98.8, and both bounds are reached: 25.9 at the vector (1.5, 500, 50, 0,
    0, 1) and 98.8 at the upper end of the ranges.  The same bounds hold for
    the overall score shown in the report. *)
Theorem overall_score_range (p : StressParameters) :
  in_range p ->
  (25.9 <= overallStressScore p /\ overallStressScore p <= 98.8) /\
  (25.9 <= overall (risk_scores (calculateStressOutcomes p)) /\
   overall (risk_scores (calculateStressOutcomes p)) <= 98.8) /\
  (in_range calmest /\ overallStressScore calmest == 25.9) /\
  (in_range extremes /\ overallStressScore extremes == 98.8).
Proof.
  intro H. pose proof (projectedNPA_lower p H) as Hnpa.
  destruct (impact_bounds p H)
    as [[? ?] [[? ?] [[? ?] [[? ?] [[? ?] [? ?]]]]]].
  assert (Hc : 500 <= carbon_price p)
    by (destruct H as [_ [[Hc _] _]]; exact Hc).
  assert (P : 30 <= physicalRisk p /\ physicalRisk p <= 100).
  { unfold physicalRisk. split; [apply Q.min_glb; lra | apply Q.le_min_l]. }
  assert (T : 22 <= transitionRisk p /\ transitionRisk p <= 94).
  { unfold transitionRisk. split; [apply Q.min_glb; lra|].
    apply Qle_trans with (1 := Q.le_min_r _ _). lra. }
  assert (F : 20 <= financialRisk p /\ financialRisk p <= 100).
  { unfold financialRisk, baseNPA. literal_division.
    split; [apply Q.min_glb; lra | apply Q.le_min_l]. }
  assert (O : 20 <= operationalRisk p /\ operationalRisk p <= 100).
  { unfold operationalRisk. split; [apply Q.min_glb; lra | apply Q.le_min_l]. }
  assert (R : 37.5 <= regulatoryRisk p /\ regulatoryRisk p <= 100).
  { unfold regulatoryRisk. literal_division.
    split; [apply Q.min_glb; lra | apply Q.le_min_l]. }
  assert (B : 25.9 <= overallStressScore p /\ overallStressScore p <= 98.8).
  { unfold overallStressScore. literal_division. split; lra. }
  split; [exact B|]. split; [|split].
  - report_fields. destruct B as [Blo Bhi]. split.
    + apply Qle_trans with (inject_Z 259 / Js.pow10 1);
        [vm_compute; discriminate|].
      apply fixed_ge_decimal; [reflexivity|].
      change (inject_Z 259 / Js.pow10 1) with (259 # 10). lra.
    + apply Qle_trans with (inject_Z 988 / Js.pow10 1);
        [|vm_compute; discriminate].
      apply fixed_le_decimal; [reflexivity|].
      change (inject_Z 988 / Js.pow10 1) with (988 # 10). lra.
  - split; [in_range_tac | by_evaluation].
  - split; [in_range_tac | by_evaluation].
Qed.

Lemma overall_score_range_at_defaults :
  25.9 <= overallStressScore defaults /\ overallStressScore defaults <= 98.8.
Proof.
  exact (proj1 (overall_score_range defaults defaults_in_range)).
Defined.

(** X7: no label is dead: each of the four stress levels and each of the
    three capital adequacy labels is the label of the report of some vector
    inside the declared ranges. *)
Theorem every_label_occurs :
  (forall l : string,
     In l ["Low"; "Moderate"; "High"; "Severe"]%string ->
     exists p, in_range p /\ stress_level (calculateStressOutcomes p) = l) /\
  (forall l : string,
     In l ["Adequate"; "Watch"; "Critical"]%string ->
     exists p,
       in_range p /\ capital_adequacy (calculateStressOutcomes p) = l).
Proof.
  split; intros l Hl; simpl in Hl.
  - destruct Hl as [<-|[<-|[<-|[<-|[]]]]].
    + exists calmest. split; [in_range_tac | by_evaluation].
    + exists defaults. split; [in_range_tac | by_evaluation].
    + exists climateCrisis. split; [in_range_tac | by_evaluation].
    + exists nearSevere. split; [in_range_tac | by_evaluation].
  - destruct Hl as [<-|[<-|[<-|[]]]].
    + exists defaults. split; [in_range_tac | by_evaluation].
    + exists nearAdequate. split; [in_range_tac | by_evaluation].
    + exists climateCrisis. split; [in_range_tac | by_evaluation].
Qed.

Lemma every_label_occurs_low :
  exists p, in_range p /\ stress_level (calculateStressOutcomes p) = "Low"%string.
Proof.
  apply (proj1 every_label_occurs). simpl. left. reflexivity.
Defined.

(** * What the page shows *)

(** ** Sliders, gauges and radar *)

Lemma catalogue_well_formed :
  Forall (fun e => min (snd e) < max (snd e) /\ within (snd e) (default (snd e)))
    STRESS_TEST_PARAMS_entries.
Proof.
  repeat apply Forall_cons; try apply Forall_nil;
    (split; [reflexivity | split; unfold Qle; simpl; lia]).
Qed.

(** X8: for a slider whose [min] is below its [max], a value between the
    two fills between 0 and 100 percent of the track, none of it exactly at
    [min] and all of it exactly at [max], and a larger value never fills
    less.  Every entry of the catalogue has its [min] below its [max]. *)
Theorem slider_percentage_bounds (config : ParamConfig) (value : Q) :
  min config < max config ->
  within config value ->
  (0 <= ParamSlider.percentage config value /\
   ParamSlider.percentage config value <= 100) /\
  (ParamSlider.percentage config value == 0 <-> value == min config) /\
  (ParamSlider.percentage config value == 100 <-> value == max config) /\
  (forall value' : Q,
     value <= value' ->
     ParamSlider.percentage config value
     <= ParamSlider.percentage config value') /\
  Forall (fun e => min (snd e) < max (snd e)) STRESS_TEST_PARAMS_entries.
Proof.
  intros Hc [Hlo Hhi].
  assert (HD : 0 < max config - min config) by lra.
  assert (E : forall v,
    ParamSlider.percentage config v * (max config - min config)
    == (v - min config) * 100).
  { intro v. unfold ParamSlider.percentage. field. lra. }
  pose proof (E value) as Ev.
  set (X := ParamSlider.percentage config value) in *.
  split_all.
  - apply Qnot_lt_le. intro Hneg. nra.
  - apply Qnot_lt_le. intro Hbig. nra.
  - split.
    + intro HX. rewrite HX in Ev. lra.
    + intro Hv. apply Qle_antisym; apply Qnot_lt_le; intro Hoff; nra.
  - split.
    + intro HX. rewrite HX in Ev. lra.
    + intro Hv. apply Qle_antisym; apply Qnot_lt_le; intro Hoff; nra.
  - intros value' Hle. pose proof (E value') as Ev'.
    set (X' := ParamSlider.percentage config value') in *.
    apply Qnot_lt_le. intro Hlt. nra.
  - pose proof catalogue_well_formed as W.
    rewrite Forall_forall in W |- *. intros e He. exact (proj1 (W e He)).
Qed.

Lemma slider_percentage_bounds_carbon_default :
  0 <= ParamSlider.percentage STRESS_TEST_PARAMS.carbon_price 1000 /\
  ParamSlider.percentage STRESS_TEST_PARAMS.carbon_price 1000 <= 100.
Proof.
  apply (slider_percentage_bounds STRESS_TEST_PARAMS.carbon_price 1000).
  - reflexivity.
  - split; unfold Qle; simpl; lia.
Defined.

Lemma report_scores_bounded (p : StressParameters) :
  in_range p ->
  Forall (fun v => 0 <= v /\ v <= 100) (riskRadarData (calculateStressOutcomes p)).
Proof.
  intro H.
  destruct (raw_score_bounds p H)
    as [[? ?] [[? ?] [[? ?] [[? ?] [[? ?] [? ?]]]]]].
  assert (S0 : Qabs (inject_Z 0) < Js.limit) by reflexivity.
  assert (S100 : Qabs (inject_Z 100) < Js.limit) by reflexivity.
  unfold riskRadarData. report_fields.
  repeat apply Forall_cons; try apply Forall_nil;
    apply (fixed_between 0 100); assumption.
Qed.

(** X9: on every state the page can reach, the report exists and each of
    the five scores handed to the gauges and to the radar lies between 0
    and 100, the scale of the radar and the [maxValue] of the gauges; every
    slider finds its parameter in the state and fills between 0 and 100
    percent of its track; and no bar of the comparison chart, whose axis
    begins at zero, is negative. *)
Theorem displays_within_scale (events : list Event) :
  Forall produced events ->
  exists r : StressReport,
    stressOutcomes (stateAfter events) = Some r /\
    Forall (fun v => 0 <= v /\ v <= 100) (riskRadarData r) /\
    Forall (fun v => 0 <= v /\ v <= 100) (gaugeValues r) /\
    Forall (fun e =>
              exists v,
                getProperty (stateAfter events) (fst e) = Some v /\
                0 <= ParamSlider.percentage (snd e) v /\
                ParamSlider.percentage (snd e) v <= 100)
           STRESS_TEST_PARAMS_entries /\
    Forall (fun v => 0 <= v) (fst (comparisonChartData r)) /\
    Forall (fun v => 0 <= v) (snd (comparisonChartData r)).
Proof.
  intro HF.
  destruct (stateAfter_in_range events HF) as (p & Hp & Hr).
  exists (calculateStressOutcomes p).
  pose proof (report_scores_bounded p Hr) as Hs.
  split; [unfold stressOutcomes; now rewrite Hp|].
  split; [exact Hs|]. split; [|split; [|split]].
  3: { unfold comparisonChartData. report_fields. cbn [fst].
       repeat apply Forall_cons; try apply Forall_nil; vm_compute; discriminate. }
  3: { destruct (quantity_bounds p Hr)
         as [[? ?] [[? ?] [_ [[? ?] [[? ?] _]]]]].
       unfold comparisonChartData. report_fields. cbn [snd].
       repeat apply Forall_cons; try apply Forall_nil;
         apply (fixed_ge_integer 0); try reflexivity;
         change (inject_Z 0) with 0; lra. }
  - exact Hs.
  - apply fromObject_inv in Hp.
    destruct Hp as (Gt & Gc & Gg & Gf & Gw & Gd).
    destruct Hr as (Rt & Rc & Rg & Rf & Rw & Rd).
    assert (P : forall config v, min config < max config -> within config v ->
                0 <= ParamSlider.percentage config v /\
                ParamSlider.percentage config v <= 100).
    { intros config v Hc [Hlo Hhi].
      assert (E : ParamSlider.percentage config v * (max config - min config)
                  == (v - min config) * 100)
        by (unfold ParamSlider.percentage; field; lra).
      set (X := ParamSlider.percentage config v) in *.
      split; apply Qnot_lt_le; intro Hoff; nra. }
    repeat apply Forall_cons; try apply Forall_nil; cbn [fst snd].
    + exists (temperature_rise p). split; [exact Gt|].
      apply P; [reflexivity | exact Rt].
    + exists (carbon_price p). split; [exact Gc|].
      apply P; [reflexivity | exact Rc].
    + exists (green_investment_growth p). split; [exact Gg|].
      apply P; [reflexivity | exact Rg].
    + exists (fossil_phase_out p). split; [exact Gf|].
      apply P; [reflexivity | exact Rf].
    + exists (water_stress_level p). split; [exact Gw|].
      apply P; [reflexivity | exact Rw].
    + exists (disaster_frequency p). split; [exact Gd|].
      apply P; [reflexivity | exact Rd].
Qed.

Lemma displays_within_scale_sample :
  exists r : StressReport,
    stressOutcomes (stateAfter sampleSession) = Some r /\
    Forall (fun v => 0 <= v /\ v <= 100) (riskRadarData r).
Proof.
  destruct (displays_within_scale sampleSession sampleSession_produced)
    as (r & Hr & Hs & _).
  exists r. split; assumption.
Defined.

(** ** Colour of the overall figure against the badge *)

Lemma badgeClass_eq (p : StressParameters) :
  badgeClass (calculateStressOutcomes p)
  = if Js.gt (overallStressScore p) 70 then "bg-red-100 text-red-700"%string
    else if Js.gt (overallStressScore p) 50
         then "bg-orange-100 text-orange-700"%string
    else if Js.gt (overallStressScore p) 30
         then "bg-yellow-100 text-yellow-700"%string
    else "bg-green-100 text-green-700"%string.
Proof.
  unfold badgeClass. rewrite stress_level_eq. unfold stressLevelOf.
  destruct (Js.gt (overallStressScore p) 70); [reflexivity|].
  destruct (Js.gt (overallStressScore p) 50); [reflexivity|].
  destruct (Js.gt (overallStressScore p) 30); reflexivity.
Qed.

(** The shown overall score against a whole threshold. *)
Lemma shown_against_threshold (x : Q) (t : Z) :
  Qabs (inject_Z t) < Js.limit ->
  (x <= inject_Z t -> Js.fixed x 1 <= inject_Z t) /\
  (inject_Z t < x -> inject_Z t <= Js.fixed x 1).
Proof.
  intro S. split; intro H.
  - now apply fixed_le_integer.
  - apply fixed_ge_integer; [assumption | lra].
Qed.

(** X10: the colour of the overall figure follows the rounded score and the
    badge follows the unrounded one, with the same thresholds.  The figure
    is never coloured more severely than the badge and at most one step
    less: red goes with a red badge, orange with orange or red, yellow with
    yellow or orange, green with green or yellow.  When the shown score is
    none of 30, 50 and 70 the two agree; at [nearSevere] the figure is
    orange under a red badge. *)
Theorem overall_colour_and_badge (p : StressParameters) :
  let r := calculateStressOutcomes p in
  (overallClass r = "text-red-500"%string ->
   badgeClass r = "bg-red-100 text-red-700"%string) /\
  (overallClass r = "text-orange-500"%string ->
   badgeClass r = "bg-orange-100 text-orange-700"%string \/
   badgeClass r = "bg-red-100 text-red-700"%string) /\
  (overallClass r = "text-yellow-500"%string ->
   badgeClass r = "bg-yellow-100 text-yellow-700"%string \/
   badgeClass r = "bg-orange-100 text-orange-700"%string) /\
  (overallClass r = "text-green-500"%string ->
   badgeClass r = "bg-green-100 text-green-700"%string \/
   badgeClass r = "bg-yellow-100 text-yellow-700"%string) /\
  (~ overall (risk_scores r) == 30 ->
   ~ overall (risk_scores r) == 50 ->
   ~ overall (risk_scores r) == 70 ->
   In (overallClass r, badgeClass r)
     [ ("text-red-500", "bg-red-100 text-red-700");
       ("text-orange-500", "bg-orange-100 text-orange-700");
       ("text-yellow-500", "bg-yellow-100 text-yellow-700");
       ("text-green-500", "bg-green-100 text-green-700") ]%string) /\
  (in_range nearSevere /\
   overallClass (calculateStressOutcomes nearSevere) = "text-orange-500"%string /\
   badgeClass (calculateStressOutcomes nearSevere)
   = "bg-red-100 text-red-700"%string).
Proof.
  intro r. subst r. rewrite badgeClass_eq. unfold overallClass. report_fields.
  destruct (shown_against_threshold (overallStressScore p) 30 eq_refl)
    as [L30 G30].
  destruct (shown_against_threshold (overallStressScore p) 50 eq_refl)
    as [L50 G50].
  destruct (shown_against_threshold (overallStressScore p) 70 eq_refl)
    as [L70 G70].
  change (inject_Z 30) with 30 in *. change (inject_Z 50) with 50 in *.
  change (inject_Z 70) with 70 in *.
  set (o := overallStressScore p) in *.
  set (s := Js.parseFloat (Js.toFixed o 1)) in *.
  destruct (Js.gt o 70) eqn:O70; [apply gt_true in O70 | apply gt_false in O70];
  destruct (Js.gt o 50) eqn:O50; [apply gt_true in O50 | apply gt_false in O50
                                 | apply gt_true in O50 | apply gt_false in O50];
  destruct (Js.gt o 30) eqn:O30;
  try (apply gt_true in O30); try (apply gt_false in O30);
  try (exfalso; lra);
  destruct (Js.gt s 70) eqn:S70; [apply gt_true in S70 | apply gt_false in S70
                                 | apply gt_true in S70 | apply gt_false in S70
                                 | apply gt_true in S70 | apply gt_false in S70
                                 | apply gt_true in S70 | apply gt_false in S70];
  try (exfalso; specialize (L70 ltac:(lra)); lra);
  destruct (Js.gt s 50) eqn:S50;
  try (apply gt_true in S50); try (apply gt_false in S50);
  try (exfalso; specialize (L50 ltac:(lra)); lra);
  try (exfalso; lra);
  destruct (Js.gt s 30) eqn:S30;
  try (apply gt_true in S30); try (apply gt_false in S30);
  try (exfalso; specialize (L30 ltac:(lra)); lra);
  try (exfalso; lra);
  (split; [intro; first [reflexivity | discriminate | tauto]|]);
  (split; [intro; first [discriminate | tauto]|]);
  (split; [intro; first [discriminate | tauto]|]);
  (split; [intro; first [discriminate | tauto]|]);
  (split; [| split; [in_range_tac | split; by_evaluation]]);
  intros N30 N50 N70; simpl;
  first [ tauto
        | exfalso; specialize (G70 ltac:(lra)); apply N70; lra
        | exfalso; specialize (G50 ltac:(lra)); apply N50; lra
        | exfalso; specialize (G30 ltac:(lra)); apply N30; lra ].
Qed.

Lemma overall_colour_and_badge_at_defaults :
  In (overallClass (calculateStressOutcomes defaults),
      badgeClass (calculateStressOutcomes defaults))
     [ ("text-red-500", "bg-red-100 text-red-700");
       ("text-orange-500", "bg-orange-100 text-orange-700");
       ("text-yellow-500", "bg-yellow-100 text-yellow-700");
       ("text-green-500", "bg-green-100 text-green-700") ]%string.
Proof.
  pose proof (overall_colour_and_badge defaults) as C. cbv zeta in C.
  apply (proj1 (proj2 (proj2 (proj2 (proj2 C))))); vm_compute; discriminate.
Defined.

(** ** The shown changes against the shown figures *)

Lemma scaled_decimal (n : Z) (d : nat) :
  inject_Z n / Js.pow10 d * Js.pow10 d == inject_Z n.
Proof. pose proof (pow10_pos d). field. lra. Qed.

(** Subtracting a [d]-digit decimal below [x] commutes with the choice of
    digits. *)
Lemma nearest_shift (x : Q) (n : Z) (d : nat) :
  Js.nearest (x - inject_Z n / Js.pow10 d) d = (Js.nearest x d - n)%Z.
Proof.
  destruct (nearest_bounds x d) as [Alo Ahi].
  destruct (nearest_bounds (x - inject_Z n / Js.pow10 d) d) as [Blo Bhi].
  pose proof (scaled_decimal n d) as E.
  assert (Es : (x - inject_Z n / Js.pow10 d) * Js.pow10 d
               == x * Js.pow10 d - inject_Z n) by (rewrite <- E at 2; ring).
  rewrite Es in Blo, Bhi.
  set (A := Js.nearest x d) in *.
  set (B := Js.nearest (x - inject_Z n / Js.pow10 d) d) in *.
  assert (H1 : (B < A - n + 1)%Z).
  { rewrite Zlt_Qlt. unfold Z.sub.
    rewrite !inject_Z_plus, inject_Z_opp. change (inject_Z 1) with 1. lra. }
  assert (H2 : (A - n < B + 1)%Z).
  { rewrite Zlt_Qlt. unfold Z.sub.
    rewrite !inject_Z_plus, inject_Z_opp. change (inject_Z 1) with 1. lra. }
  lia.
Qed.

(** The digits of [x] and of [c - x] add up to those of [c], or to one
    more when [x] lies half-way between two decimals. *)
Lemma nearest_reflect (x : Q) (n : Z) (d : nat) :
  (n <= Js.nearest x d + Js.nearest (inject_Z n / Js.pow10 d - x) d <= n + 1)%Z.
Proof.
  destruct (nearest_bounds x d) as [Alo Ahi].
  destruct (nearest_bounds (inject_Z n / Js.pow10 d - x) d) as [Blo Bhi].
  pose proof (scaled_decimal n d) as E.
  assert (Es : (inject_Z n / Js.pow10 d - x) * Js.pow10 d
               == inject_Z n - x * Js.pow10 d) by (rewrite <- E at 2; ring).
  rewrite Es in Blo, Bhi.
  set (A := Js.nearest x d) in *.
  set (B := Js.nearest (inject_Z n / Js.pow10 d - x) d) in *.
  assert (H1 : (n < A + B + 1)%Z).
  { rewrite Zlt_Qlt. rewrite !inject_Z_plus. change (inject_Z 1) with 1. lra. }
  assert (H2 : (A + B < n + 2)%Z).
  { rewrite Zlt_Qlt. rewrite !inject_Z_plus. change (inject_Z 2) with 2. lra. }
  lia.
Qed.

(** The rounded difference to a decimal [c] against the difference of the
    rounded number to [c]. *)
Lemma fixed_shift (x c : Q) (n : Z) (d : nat) :
  c == inject_Z n / Js.pow10 d ->
  0 <= x -> x < Js.limit -> 0 <= c -> c < Js.limit ->
  (c <= x -> Js.fixed (x - c) d == Js.fixed x d - c) /\
  (x < c ->
   Js.fixed (x - c) d <= 0 /\
   Js.fixed (x - c) d <= Js.fixed x d - c /\
   Js.fixed x d - c - 1 / Js.pow10 d <= Js.fixed (x - c) d).
Proof.
  intros Ec Hx Lx Hc Lc. pose proof (pow10_pos d) as Hs.
  rewrite (fixed_nonneg_eq x d Hx Lx).
  assert (EC : c * Js.pow10 d == inject_Z n)
    by (rewrite Ec; apply scaled_decimal).
  assert (E1 : 1 / Js.pow10 d * Js.pow10 d == 1) by (field; lra).
  pose proof (scaled_decimal (Js.nearest x d) d) as EA.
  split; intro H.
  - rewrite (fixed_nonneg_eq (x - c) d) by lra.
    assert (EN : Js.nearest (x - c) d
                 = Js.nearest (x - inject_Z n / Js.pow10 d) d).
    { apply Z.le_antisymm; apply nearest_mono; lra. }
    rewrite EN, nearest_shift.
    unfold Z.sub. rewrite inject_Z_plus, inject_Z_opp, Ec. field. lra.
  - assert (Hneg : x - c < 0) by lra.
    assert (Hlo : - Js.limit < x - c) by lra.
    rewrite (fixed_neg_eq (x - c) d Hneg Hlo).
    assert (EN : Js.nearest (- (x - c)) d
                 = Js.nearest (inject_Z n / Js.pow10 d - x) d).
    { apply Z.le_antisymm; apply nearest_mono; lra. }
    rewrite EN.
    pose proof (nearest_reflect x n d) as [R1 R2].
    assert (Bnn : (0 <= Js.nearest (inject_Z n / Js.pow10 d - x) d)%Z)
      by (apply nearest_nonneg; lra).
    pose proof (scaled_decimal (Js.nearest (inject_Z n / Js.pow10 d - x) d) d)
      as EB.
    set (A := Js.nearest x d) in *.
    set (B := Js.nearest (inject_Z n / Js.pow10 d - x) d) in *.
    assert (Q1 : inject_Z n <= inject_Z A + inject_Z B)
      by (rewrite <- inject_Z_plus, <- Zle_Qle; exact R1).
    assert (Q2 : inject_Z A + inject_Z B <= inject_Z n + 1).
    { change 1 with (inject_Z 1). rewrite <- !inject_Z_plus, <- Zle_Qle.
      exact R2. }
    assert (Q3 : 0 <= inject_Z B)
      by (change 0 with (inject_Z 0); rewrite <- Zle_Qle; exact Bnn).
    clear Ec EN R1 R2 Bnn.
    set (a := inject_Z A / Js.pow10 d) in *.
    set (b := inject_Z B / Js.pow10 d) in *.
    set (u := 1 / Js.pow10 d) in *.
    split_all; apply Qnot_lt_le; intro Hoff; nra.
Qed.

(** X11: inside the declared ranges the change shown for the NPA ratio and
    for the GDP growth never exceeds the difference of the two shown figures
    and falls short of it by at most one hundredth; it is exactly the
    difference when the projection is not below the baseline.  The NPA figure is red exactly when the shown
    projection exceeds the shown baseline; the GDP figure is red whenever
    the shown projection is below the shown baseline, and when it is red the
    shown projection does not exceed the baseline. *)
Theorem changes_agree_with_figures (p : StressParameters) :
  in_range p ->
  let r := calculateStressOutcomes p in
  let npa_shown := npa_ratio (projected r) - npa_ratio (baseline r) in
  let gdp_shown := gdp_growth (projected r) - gdp_growth (baseline r) in
  (npa_shown - 0.01 <= npa_change (changes r) /\
   npa_change (changes r) <= npa_shown) /\
  (baseNPA <= projectedNPA p -> npa_change (changes r) == npa_shown) /\
  (gdp_shown - 0.01 <= gdp_change (changes r) /\
   gdp_change (changes r) <= gdp_shown) /\
  (baseGDP <= projectedGDP p -> gdp_change (changes r) == gdp_shown) /\
  (npaClass r = "text-red-600"%string <->
   npa_ratio (baseline r) < npa_ratio (projected r)) /\
  (gdp_growth (projected r) < gdp_growth (baseline r) ->
   gdpClass r = "text-red-600"%string) /\
  (gdpClass r = "text-red-600"%string ->
   gdp_growth (projected r) <= gdp_growth (baseline r)).
Proof.
  intros H r npa_shown gdp_shown. subst npa_shown gdp_shown r.
  unfold npaClass, gdpClass. report_fields.
  destruct (quantity_bounds p H) as [[N0 N1] [[G0 G1] _]].
  assert (LN : projectedNPA p < Js.limit)
    by (apply Qle_lt_trans with 11; [assumption | reflexivity]).
  assert (LG : projectedGDP p < Js.limit)
    by (apply Qle_lt_trans with 7; [assumption | reflexivity]).
  destruct (fixed_shift (projectedNPA p) baseNPA 250 2
              ltac:(reflexivity) N0 LN
              ltac:(vm_compute; discriminate) ltac:(reflexivity))
    as [NA NB].
  destruct (fixed_shift (projectedGDP p) baseGDP 650 2
              ltac:(reflexivity) G0 LG
              ltac:(vm_compute; discriminate) ltac:(reflexivity))
    as [GA GB].
  change (1 / Js.pow10 2) with (1 # 100) in *.
  set (cn := Js.parseFloat (Js.toFixed (projectedNPA p - baseNPA) 2)) in *.
  set (cg := Js.parseFloat (Js.toFixed (projectedGDP p - baseGDP) 2)) in *.
  unfold baseNPA, baseGDP in *.
  set (sn := Js.parseFloat (Js.toFixed (projectedNPA p) 2)) in *.
  set (sg := Js.parseFloat (Js.toFixed (projectedGDP p) 2)) in *.
  assert (SN : 0 <= sn) by (apply (fixed_ge_integer 0 2); [reflexivity | exact N0]).
  assert (PN : 2.5 <= projectedNPA p -> 0 <= cn).
  { intro Hge. apply (fixed_ge_integer 0 2); [reflexivity|].
    change (inject_Z 0) with 0. lra. }
  assert (PG : 6.5 <= projectedGDP p -> 0 <= cg).
  { intro Hge. apply (fixed_ge_integer 0 2); [reflexivity|].
    change (inject_Z 0) with 0. lra. }
  assert (UN : projectedNPA p <= 2.5 -> sn <= 2.5).
  { intro Hle. apply Qle_trans with (inject_Z 250 / Js.pow10 2);
      [|vm_compute; discriminate].
    apply fixed_le_decimal; [reflexivity|].
    change (inject_Z 250 / Js.pow10 2) with (250 # 100). lra. }
  assert (UG : projectedGDP p <= 6.5 -> sg <= 6.5).
  { intro Hle. apply Qle_trans with (inject_Z 650 / Js.pow10 2);
      [|vm_compute; discriminate].
    apply fixed_le_decimal; [reflexivity|].
    change (inject_Z 650 / Js.pow10 2) with (650 # 100). lra. }
  destruct (Qlt_le_dec (projectedNPA p) 2.5) as [Nlt|Nge];
    destruct (Qlt_le_dec (projectedGDP p) 6.5) as [Glt|Gge];
    try (specialize (NB ltac:(lra))); try (specialize (NA ltac:(lra)));
    try (specialize (GB ltac:(lra))); try (specialize (GA ltac:(lra)));
    try (specialize (PN ltac:(lra))); try (specialize (PG ltac:(lra)));
    try (specialize (UN ltac:(lra))); try (specialize (UG ltac:(lra)));
    (split; [split; lra|]);
    (split; [intro; lra|]);
    (split; [split; lra|]);
    (split; [intro; lra|]);
    (split;
     [ split;
       [ destruct (Js.gt cn 0) eqn:E; [apply gt_true in E; intros _; lra
                                       | discriminate]
       | intro Hlt; assert (E : Js.gt cn 0 = true) by (apply gt_true; lra);
         now rewrite E ] |]);
    (split;
     [ intro Hlt; assert (E : Js.lt cg 0 = true) by (apply lt_true; lra);
       now rewrite E
     | destruct (Js.lt cg 0) eqn:E; [apply lt_true in E; intros _; lra
                                     | discriminate] ]).
Qed.

Lemma changes_agree_with_figures_at_defaults :
  npa_change (changes (calculateStressOutcomes defaults))
  <= npa_ratio (projected (calculateStressOutcomes defaults))
     - npa_ratio (baseline (calculateStressOutcomes defaults)).
Proof.
  pose proof (changes_agree_with_figures defaults defaults_in_range) as C.
  cbv zeta in C. exact (proj2 (proj1 C)).
Defined.

(** ** Shape of the recommendation list *)

(** X12: whatever the report, the recommendations are the six texts of the
    page with some of the first four left out: they come in the fixed order
    of the rules, none is repeated, there are between two and six of them,
    and the list ends with the two standing recommendations. *)
Theorem recommendations_shape (r : StressReport) :
  sublist (recommendations r) allAdvice = true /\
  NoDup (recommendations r) /\
  (2 <= List.length (recommendations r) <= 6)%nat /\
  exists conditional : list string,
    recommendations r = conditional ++ [monitoringAdvice; portfolioAdvice] /\
    sublist conditional
      [physicalAdvice; transitionAdvice; capitalAdvice; creditAdvice] = true.
Proof.
  unfold recommendations.
  destruct (Js.gt (physical (risk_scores r)) 50);
    destruct (Js.gt (transition (risk_scores r)) 50);
    destruct (Js.lt (capital_ratio (projected r)) 12);
    destruct (Js.gt (npa_change (changes r)) 1);
    cbn [shown app];
    (split; [reflexivity|]);
    (split; [repeat constructor; simpl; intuition discriminate|]);
    (split; [simpl; lia|]);
    match goal with
    | |- exists c, ?l = _ /\ _ =>
        exists (removelast (removelast l)); split; reflexivity
    end.
Qed.

(** ** Labels against recommendations *)

Lemma severe_inv (o : Q) : stressLevelOf o = "Severe"%string -> 70 < o.
Proof.
  unfold stressLevelOf. destruct (Js.gt o 70) eqn:E.
  - intros _. now apply gt_true.
  - destruct (Js.gt o 50); [discriminate|].
    destruct (Js.gt o 30); discriminate.
Qed.

Lemma not_adequate_inv (c : Q) :
  capitalAdequacyOf c <> "Adequate"%string -> c < 11.5.
Proof.
  unfold capitalAdequacyOf. destruct (Js.ge c 11.5) eqn:E.
  - intro H. exfalso. now apply H.
  - intros _. now apply ge_false.
Qed.

Lemma critical_inv (c : Q) : capitalAdequacyOf c = "Critical"%string -> c < 9.
Proof.
  unfold capitalAdequacyOf. destruct (Js.ge c 11.5); [discriminate|].
  destruct (Js.ge c 9) eqn:E; [discriminate|].
  intros _. now apply ge_false.
Qed.

Lemma critical_intro (c : Q) : c < 9 -> capitalAdequacyOf c = "Critical"%string.
Proof.
  intro H. unfold capitalAdequacyOf.
  assert (E1 : Js.ge c 11.5 = false) by (apply ge_false; lra).
  assert (E2 : Js.ge c 9 = false) by (apply ge_false; lra).
  now rewrite E1, E2.
Qed.

Lemma adequate_inv (c : Q) : capitalAdequacyOf c = "Adequate"%string -> 11.5 <= c.
Proof.
  unfold capitalAdequacyOf. destruct (Js.ge c 11.5) eqn:E.
  - intros _. now apply ge_true.
  - destruct (Js.ge c 9); discriminate.
Qed.

Lemma adequate_intro (c : Q) : 11.5 <= c -> capitalAdequacyOf c = "Adequate"%string.
Proof.
  intro H. unfold capitalAdequacyOf.
  assert (E : Js.ge c 11.5 = true) by (now apply ge_true).
  now rewrite E.
Qed.

(** X13: a report whose capital adequacy is not "Adequate" always carries
    the capital-buffer recommendation; the recommendation also comes with
    an "Adequate" label, as at [atAdequateThreshold], where the ratio is
    11.5. *)
Theorem capital_label_and_advice (p : StressParameters) :
  let r := calculateStressOutcomes p in
  (capital_adequacy r <> "Adequate"%string -> In capitalAdvice (recommendations r)) /\
  (in_range atAdequateThreshold /\
   capital_adequacy (calculateStressOutcomes atAdequateThreshold)
   = "Adequate"%string /\
   In capitalAdvice (recommendations (calculateStressOutcomes atAdequateThreshold))).
Proof.
  intro r. subst r. split.
  - intro Hlabel. rewrite capital_adequacy_eq in Hlabel.
    apply not_adequate_inv in Hlabel. rename Hlabel into E.
    apply recommendations_In. right. right. left. split; [|reflexivity].
    apply lt_true. report_fields.
    apply Qle_lt_trans with (inject_Z 1150 / Js.pow10 2); [|reflexivity].
    apply fixed_le_decimal; [reflexivity|].
    change (inject_Z 1150 / Js.pow10 2) with (1150 # 100). lra.
  - split; [in_range_tac|]. split; [by_evaluation|].
    vm_compute. tauto.
Qed.

Lemma capital_label_and_advice_at_crisis :
  In capitalAdvice (recommendations (calculateStressOutcomes climateCrisis)).
Proof.
  pose proof (capital_label_and_advice climateCrisis) as C. cbv zeta in C.
  apply (proj1 C). vm_compute. discriminate.
Defined.

(** X14: inside the declared ranges a report labelled "Severe" always
    carries the physical-risk recommendation. *)
Theorem severe_carries_physical_advice (p : StressParameters) :
  in_range p ->
  stress_level (calculateStressOutcomes p) = "Severe"%string ->
  In physicalAdvice (recommendations (calculateStressOutcomes p)).
Proof.
  intros H Hlevel. rewrite stress_level_eq in Hlevel.
  apply severe_inv in Hlevel. rename Hlevel into E70.
  apply recommendations_In. left. split; [|reflexivity].
  apply gt_true. report_fields.
  destruct (impact_bounds p H)
    as [[? ?] [[? ?] [[? ?] [[? ?] [[? ?] [? ?]]]]]].
  assert (Hc : carbon_price p <= 5000)
    by (destruct H as [_ [[_ Hc] _]]; exact Hc).
  assert (T : transitionRisk p <= 94).
  { unfold transitionRisk. apply Qle_trans with (1 := Q.le_min_r _ _). lra. }
  assert (R : regulatoryRisk p <= 100) by apply Q.le_min_l.
  assert (F : financialRisk p
              <= (temperatureImpact p + waterStressImpact p + disasterImpact p)
                 * 20 + 40).
  { unfold financialRisk. apply Qle_trans with (1 := Q.le_min_r _ _).
    rewrite (proj1 (inactive_clamps_unclamped_npa p H)).
    unfold baseNPA. literal_division. lra. }
  assert (O : operationalRisk p
              <= (temperatureImpact p + waterStressImpact p + disasterImpact p)
                 * 30 + 20).
  { unfold operationalRisk. apply Qle_trans with (1 := Q.le_min_r _ _). lra. }
  assert (P : 50.05 <= physicalRisk p).
  { apply Qnot_lt_le. intro Hlow.
    assert (physicalRisk p
            == (temperatureImpact p + waterStressImpact p + disasterImpact p)
               * 25 + 30).
    { unfold physicalRisk. apply Q.min_r. unfold physicalRisk in Hlow.
      destruct (Q.min_spec 100
                  ((temperatureImpact p + waterStressImpact p
                    + disasterImpact p) * 25 + 30)) as [[Hm Em]|[Hm Em]];
        rewrite Em in Hlow; lra. }
    unfold overallStressScore in E70. literal_division. lra. }
  apply Qlt_le_trans with (Js.fixed 50.05 1); [reflexivity|].
  now apply fixed_mono.
Qed.

Lemma severe_carries_physical_advice_near_severe :
  In physicalAdvice (recommendations (calculateStressOutcomes nearSevere)).
Proof.
  apply (severe_carries_physical_advice nearSevere).
  - in_range_tac.
  - by_evaluation.
Defined.

(** * The what-if tab *)

Section WhatIfProperties.

Variable Results : Set.
Variable scenarios : list WhatIf.Scenario.

Lemma requests_app (l1 l2 : list WhatIf.Effect) :
  WhatIf.requests (l1 ++ l2) = WhatIf.requests l1 ++ WhatIf.requests l2.
Proof. unfold WhatIf.requests. apply flat_map_app. Qed.

Lemma closings_app (l1 l2 : list WhatIf.Effect) :
  WhatIf.closings (l1 ++ l2) = (WhatIf.closings l1 + WhatIf.closings l2)%nat.
Proof. unfold WhatIf.closings. now rewrite filter_app, length_app. Qed.

(** X15: in every run of the what-if tab, a selected scenario is one of
    the fetched list; every request names a scenario of the list and
    carries the initial severity or a severity offered by some scenario of
    the list; requests and their closing toasts alternate, so that at most
    one request is under way, and exactly when [loading] is set; and the
    toast of the guard of [runSimulation] is never shown, the run button
    being rendered only once a scenario is selected. *)
Theorem what_if_run_invariant
  (s : WhatIf.State Results) (log : list WhatIf.Effect) :
  WhatIf.reaches Results scenarios s log ->
  (forall scenario,
     WhatIf.selectedScenario Results s = Some scenario -> In scenario scenarios) /\
  WhatIf.known_severity scenarios (WhatIf.severity Results s) /\
  Forall (WhatIf.known_request scenarios) (WhatIf.requests log) /\
  List.length (WhatIf.requests log)
  = (WhatIf.closings log + (if WhatIf.loading Results s then 1 else 0))%nat /\
  ~ In (WhatIf.ToastError "Please select a scenario") log.
Proof.
  induction 1 as [|s log e Hreach IH He].
  - simpl. split_all.
    + discriminate.
    + now left.
    + constructor.
    + reflexivity.
    + tauto.
  - destruct IH as (Isel & Isev & Ireq & Icount & Iguard).
    destruct e as [scenario|sev|now|outcome]; simpl in He.
    + simpl. rewrite app_nil_r. split_all; try assumption.
      intros sc Hsc. injection Hsc as <-. exact He.
    + simpl. rewrite app_nil_r. split_all; try assumption.
      destruct He as (sc & Hsel & Hin). right. exists sc. split; [|exact Hin].
      now apply Isel.
    + destruct He as [Hsel Hload].
      unfold WhatIf.handle, WhatIf.runSimulation_call.
      destruct (WhatIf.selectedScenario Results s) as [sc|] eqn:Esel;
        [|congruence].
      simpl. split_all.
      * intros sc' Hsc'. injection Hsc' as <-. now apply Isel.
      * exact Isev.
      * rewrite requests_app. apply Forall_app. split; [exact Ireq|].
        simpl. constructor; [|constructor]. split; [|exact Isev].
        exists sc. split; [now apply Isel | reflexivity].
      * rewrite requests_app, closings_app, length_app, Icount, Hload.
        cbn [WhatIf.requests WhatIf.closings flat_map filter List.length app].
        lia.
      * rewrite in_app_iff. simpl. intros [Hin|[Hin|[]]];
          [now apply Iguard | discriminate Hin].
    + unfold WhatIf.handle, WhatIf.runSimulation_settled.
      rewrite He in Icount.
      destruct outcome as [data|]; simpl; split_all; try assumption.
      * rewrite requests_app. simpl. now rewrite app_nil_r.
      * rewrite requests_app, closings_app, length_app, Icount.
        cbn [WhatIf.requests WhatIf.closings flat_map filter List.length app
             String.eqb Ascii.eqb Bool.eqb].
        lia.
      * rewrite in_app_iff. simpl. intros [Hin|[Hin|[]]];
          [now apply Iguard | discriminate Hin].
      * rewrite requests_app. simpl. now rewrite app_nil_r.
      * rewrite requests_app, closings_app, length_app, Icount.
        cbn [WhatIf.requests WhatIf.closings flat_map filter List.length app
             String.eqb Ascii.eqb Bool.eqb].
        lia.
      * rewrite in_app_iff. simpl. intros [Hin|[Hin|[Hin|[]]]];
          [now apply Iguard | discriminate Hin | discriminate Hin].
Qed.

Lemma reaches_step
  (s : WhatIf.State Results) (log : list WhatIf.Effect)
  (e : WhatIf.Event Results)
  (s' : WhatIf.State Results) (log' : list WhatIf.Effect) :
  WhatIf.reaches Results scenarios s log ->
  WhatIf.produced Results scenarios s e ->
  s' = fst (WhatIf.handle Results s e) ->
  log' = log ++ snd (WhatIf.handle Results s e) ->
  WhatIf.reaches Results scenarios s' log'.
Proof. intros R P -> ->. now apply WhatIf.reaches_event. Qed.

(** X16: the severity is not tied to the selected scenario.  A run on a
    scenario of the list made before any severity button is pressed sends
    the severity "moderate", whatever the scenario offers; and a severity
    chosen under one scenario is sent with another scenario selected
    afterwards, also when that one does not offer it. *)
Theorem severity_outlives_selection
  (a b : WhatIf.Scenario) (sev now : string) :
  In a scenarios -> In b scenarios -> In sev (WhatIf.severities a) ->
  (exists s log,
     WhatIf.reaches Results scenarios s log /\
     WhatIf.selectedScenario Results s = Some b /\
     WhatIf.requests log = [WhatIf.mkRequest (WhatIf.id b) "moderate" now]) /\
  (exists s log,
     WhatIf.reaches Results scenarios s log /\
     WhatIf.selectedScenario Results s = Some b /\
     WhatIf.requests log = [WhatIf.mkRequest (WhatIf.id b) sev now]).
Proof.
  intros Ha Hb Hsev. split.
  - exists (WhatIf.mkState Results (Some b) "moderate" true None).
    exists [WhatIf.Simulate (WhatIf.mkRequest (WhatIf.id b) "moderate" now)].
    split; [|split; reflexivity].
    apply (reaches_step (WhatIf.mkState Results (Some b) "moderate" false None)
             [] (WhatIf.ClickRun Results now));
      [ | simpl; split; [discriminate | reflexivity] | reflexivity | reflexivity ].
    apply (reaches_step (WhatIf.initial Results) []
             (WhatIf.ClickScenario Results b));
      [ apply WhatIf.reaches_initial | exact Hb | reflexivity | reflexivity ].
  - exists (WhatIf.mkState Results (Some b) sev true None).
    exists [WhatIf.Simulate (WhatIf.mkRequest (WhatIf.id b) sev now)].
    split; [|split; reflexivity].
    apply (reaches_step (WhatIf.mkState Results (Some b) sev false None)
             [] (WhatIf.ClickRun Results now));
      [ | simpl; split; [discriminate | reflexivity] | reflexivity | reflexivity ].
    apply (reaches_step (WhatIf.mkState Results (Some a) sev false None)
             [] (WhatIf.ClickScenario Results b));
      [ | exact Hb | reflexivity | reflexivity ].
    apply (reaches_step (WhatIf.mkState Results (Some a) "moderate" false None)
             [] (WhatIf.ClickSeverity Results sev));
      [ | simpl; exists a; split; [reflexivity | exact Hsev]
        | reflexivity | reflexivity ].
    apply (reaches_step (WhatIf.initial Results) []
             (WhatIf.ClickScenario Results a));
      [ apply WhatIf.reaches_initial | exact Ha | reflexivity | reflexivity ].
Qed.

End WhatIfProperties.

Lemma what_if_run_invariant_after_selection :
  WhatIf.known_severity WhatIf.sampleScenarios "moderate".
Proof.
  assert (R : WhatIf.reaches unit WhatIf.sampleScenarios
                (WhatIf.mkState unit (Some WhatIf.flood) "moderate" false None)
                []).
  { apply (reaches_step unit WhatIf.sampleScenarios (WhatIf.initial unit) []
             (WhatIf.ClickScenario unit WhatIf.flood));
      [ apply WhatIf.reaches_initial | simpl; tauto | reflexivity | reflexivity ]. }
  exact (proj1 (proj2 (what_if_run_invariant unit WhatIf.sampleScenarios _ _ R))).
Defined.

Lemma severity_outlives_selection_sample :
  exists s log,
    WhatIf.reaches unit WhatIf.sampleScenarios s log /\
    WhatIf.selectedScenario unit s = Some WhatIf.drought /\
    WhatIf.requests log = [WhatIf.mkRequest "drought" "severe" "2026-01-01"] /\
    ~ In "severe"%string (WhatIf.severities WhatIf.drought).
Proof.
  destruct (proj2 (severity_outlives_selection unit WhatIf.sampleScenarios
                     WhatIf.flood WhatIf.drought "severe" "2026-01-01"
                     ltac:(simpl; tauto) ltac:(simpl; tauto)
                     ltac:(simpl; tauto)))
    as (s & log & R & Hsel & Hreq).
  exists s, log. split_all; try assumption.
  simpl. intros [H|[]]. discriminate H.
Defined.

(** * Direction of every projected figure *)

(** X17: a vector that is at least as stressed in every driver has, in the
    computed quantities and in the report, no lower NPA ratio and expected
    loss and no higher GDP growth, green finance share, capital ratio and
    liquidity coverage; a capital adequacy of "Critical" stays "Critical"
    and one of "Adequate" can only come from a vector whose less stressed
    neighbours are "Adequate" too. *)
Theorem projections_monotone_in_stress (p q : StressParameters) :
  at_least_as_stressed p q ->
  let rp := calculateStressOutcomes p in
  let rq := calculateStressOutcomes q in
  (projectedNPA p <= projectedNPA q /\
   projectedGDP q <= projectedGDP p /\
   projectedExpectedLoss p <= projectedExpectedLoss q /\
   projectedGreenFinance q <= projectedGreenFinance p /\
   15.5 + capitalImpact q <= 15.5 + capitalImpact p /\
   135 - liquidityStress q * 0.5 <= 135 - liquidityStress p * 0.5) /\
  (npa_ratio (projected rp) <= npa_ratio (projected rq) /\
   gdp_growth (projected rq) <= gdp_growth (projected rp) /\
   expected_loss (projected rp) <= expected_loss (projected rq) /\
   green_finance_share (projected rq) <= green_finance_share (projected rp) /\
   capital_ratio (projected rq) <= capital_ratio (projected rp) /\
   liquidity_coverage (projected rq) <= liquidity_coverage (projected rp)) /\
  (capital_adequacy rp = "Critical"%string ->
   capital_adequacy rq = "Critical"%string) /\
  (capital_adequacy rq = "Adequate"%string ->
   capital_adequacy rp = "Adequate"%string).
Proof.
  intros H rp rq.
  destruct (impacts_ordered p q H) as (Ht & Hc & Hg & Hf & Hw & Hd).
  destruct (raw_scores_ordered p q H) as (_ & Htr & _).
  assert (Hgg : green_investment_growth q <= green_investment_growth p)
    by (destruct H as (_ & _ & _ & Hgg & _); exact Hgg).
  assert (M1 : projectedNPA p <= projectedNPA q).
  { unfold projectedNPA. apply Q.max_le_compat_l. lra. }
  assert (M2 : projectedGDP q <= projectedGDP p).
  { unfold projectedGDP. apply Q.max_le_compat_l. lra. }
  assert (M3 : projectedExpectedLoss p <= projectedExpectedLoss q).
  { unfold projectedExpectedLoss, baseExpectedLoss. lra. }
  assert (M4 : projectedGreenFinance q <= projectedGreenFinance p).
  { unfold projectedGreenFinance. lra. }
  assert (M5 : 15.5 + capitalImpact q <= 15.5 + capitalImpact p).
  { unfold capitalImpact. literal_division. lra. }
  assert (M6 : 135 - liquidityStress q * 0.5 <= 135 - liquidityStress p * 0.5).
  { assert (liquidityStress p <= liquidityStress q)
      by (unfold liquidityStress; apply Q.min_le_compat_l; lra).
    lra. }
  split; [split_all; assumption|].
  subst rp rq. split; [|split].
  - report_fields. split_all; now apply fixed_mono.
  - intro Hl. rewrite capital_adequacy_eq in *.
    apply critical_inv in Hl. apply critical_intro. lra.
  - intro Hl. rewrite capital_adequacy_eq in *.
    apply adequate_inv in Hl. apply adequate_intro. lra.
Qed.

Lemma projections_monotone_in_stress_from_defaults :
  projectedNPA defaults <= projectedNPA extremes.
Proof.
  pose proof (projections_monotone_in_stress defaults extremes
                defaults_to_extremes) as M.
  cbv zeta in M. exact (proj1 (proj1 M)).
Defined.
